(** * Stack detection and env-file scanning: a shallow embedding

    This development embeds [src/core/detectors.py] and
    [src/core/utils.py] as Rocq functions over an explicit model of the
    filesystem, checks the statements of the specification against them,
    and proves further properties that the code itself shows.

    Modelling conventions.
    - A Python [str] is a Rocq [string]; its characters are the code
      points below 256, so [lower] and [strip] are Python's functions on
      that range.
    - The filesystem is a tree ([node]); a [Path] is the list of the
      components that lead from the root of the tree to an entry.  There
      are no symbolic links, and [stat] never fails.
    - A regular file holds what [read_text(encoding="utf-8",
      errors="ignore")] returns for it: the decoded text (undecodable
      bytes already dropped), or nothing when the operating system
      refuses the read and Python raises [OSError].
    - Python exceptions are the [Raise] results of the [result] monad.
    - A function that changes the disk takes the tree and returns the
      new one. *)

From Stdlib Require Import String Ascii List Bool Arith NArith Lia.
From stdpp Require Import gmap strings.
Import ListNotations.

(** ** Python strings *)

Module Str.

(** [str.lower] on one code point below 256: A-Z, and the Latin-1
    capitals U+00C0..U+00DE except the multiplication sign U+00D7. *)
Definition lower_char (c : ascii) : ascii :=
  let n := N_of_ascii c in
  if ((65 <=? n) && (n <=? 90))%N
     || ((192 <=? n) && (n <=? 222) && negb (n =? 215))%N
  then ascii_of_N (n + 32) else c.

(** [s.lower()] *)
Fixpoint lower (s : string) : string :=
  match s with
  | EmptyString => EmptyString
  | String c s' => String (lower_char c) (lower s')
  end.

(** The literal made of [s] between two double quotes, as in the
    Python literal ['"build"']. *)
Definition quoted (s : string) : string :=
  String "034" (s +:+ String "034" EmptyString).

(** [s.startswith(p)] *)
Definition startswith (s p : string) : bool := String.prefix p s.

(** [sub in s] *)
Fixpoint isin (sub s : string) : bool :=
  String.prefix sub s ||
  match s with
  | EmptyString => false
  | String _ s' => isin sub s'
  end.

(** [s.replace(old, new)] for a non-empty [old]: occurrences are
    replaced from left to right and do not overlap; [skip] counts the
    characters of an occurrence still to be dropped. *)
Fixpoint replace_from (old new s : string) (skip : nat) : string :=
  match s with
  | EmptyString => EmptyString
  | String c s' =>
      match skip with
      | S k => replace_from old new s' k
      | O =>
          if String.prefix old s
          then new +:+ replace_from old new s' (String.length old - 1)
          else String c (replace_from old new s' 0)
      end
  end.

Definition replace (old new s : string) : string := replace_from old new s 0.

(** Characters removed by [str.strip()]: the white space of Unicode
    below 256. *)
Definition is_space (c : ascii) : bool :=
  let n := N_of_ascii c in
  ((9 <=? n) && (n <=? 13))%N || ((28 <=? n) && (n <=? 32))%N
  || (n =? 133)%N || (n =? 160)%N.

Fixpoint lstrip (s : string) : string :=
  match s with
  | EmptyString => EmptyString
  | String c s' => if is_space c then lstrip s' else s
  end.

Fixpoint rstrip (s : string) : string :=
  match s with
  | EmptyString => EmptyString
  | String c s' =>
      match rstrip s' with
      | EmptyString => if is_space c then EmptyString else String c EmptyString
      | r => String c r
      end
  end.

(** [s.strip()] *)
Definition strip (s : string) : string := rstrip (lstrip s).

(** [s.split(sep, 1)] for a one-character [sep] that occurs in [s]:
    the text before the first [sep] and the text after it. *)
Fixpoint split1 (sep : ascii) (s : string) : option (string * string) :=
  match s with
  | EmptyString => None
  | String c s' =>
      if Ascii.eqb c sep then Some (EmptyString, s')
      else match split1 sep s' with
           | Some (k, v) => Some (String c k, v)
           | None => None
           end
  end.

(** The lines a text-mode file yields in universal-newlines mode: the
    text is cut after every ["\n"], ["\r\n"] and lone ["\r"].  The line
    terminator is left out, since every caller strips the line. *)
Fixpoint lines_from (s : string) (cur : string) : list string :=
  match s with
  | EmptyString =>
      match cur with EmptyString => [] | _ => [cur] end
  | String c s' =>
      if Ascii.eqb c "010" then cur :: lines_from s' EmptyString
      else if Ascii.eqb c "013" then
        match s' with
        | String d s'' =>
            if Ascii.eqb d "010" then lines_from s' cur
            else cur :: lines_from s' EmptyString
        | EmptyString => [cur]
        end
      else lines_from s' (cur +:+ String c EmptyString)
  end.

Definition lines (s : string) : list string := lines_from s EmptyString.

(** [s.split(sep)] for a one-character [sep]: the pieces between the
    separators, at least one piece. *)
Fixpoint split (sep : ascii) (s : string) : list string :=
  match s with
  | EmptyString => [EmptyString]
  | String c s' =>
      if Ascii.eqb c sep then EmptyString :: split sep s'
      else match split sep s' with
           | piece :: pieces => String c piece :: pieces
           | [] => [String c EmptyString]
           end
  end.

End Str.

(** ** Glob patterns of one path component

    [Path.rglob] matches a name against a pattern with the rules of
    [fnmatch.translate]: [*] is any run of characters, [?] one character,
    [[seq]] one character of [seq], [[!seq]] one character not in [seq],
    and a [[] that is never closed stands for itself.  On a POSIX
    filesystem the match is case-sensitive, and a leading dot is not
    special. *)

Module Glob.

Inductive tok : Type :=
| Star
| AnyChar
| Class (negated : bool) (items : list (ascii * ascii))
| Lit (c : ascii).

(** Index in [s] of the [']'] that closes a class whose body starts at
    [s]: a leading ['!'] and then a leading [']'] belong to the body. *)
Fixpoint find_close (s : string) (i : nat) : option nat :=
  match s with
  | EmptyString => None
  | String c s' => if Ascii.eqb c "]" then Some i else find_close s' (S i)
  end.

Definition class_end (s : string) : option nat :=
  let '(s1, i1) :=
    match s with
    | String "!" s' => (s', 1)
    | _ => (s, 0)
    end in
  let '(s2, i2) :=
    match s1 with
    | String "]" s' => (s', S i1)
    | _ => (s1, i1)
    end in
  find_close s2 i2.

(** The members of a class body: [a-b] is a range, any other character
    stands for itself (so does a ['-'] that begins or ends the body). *)
Fixpoint class_items (body : string) : list (ascii * ascii) :=
  match body with
  | EmptyString => []
  | String a rest =>
      match rest with
      | String "-" (String b rest') => (a, b) :: class_items rest'
      | _ => (a, a) :: class_items rest
      end
  end.

Definition class_of (stuff : string) : tok :=
  match stuff with
  | String "!" body => Class true (class_items body)
  | _ => Class false (class_items stuff)
  end.

(** The scan of [fnmatch.translate]; [skip] counts the characters of a
    class already consumed. *)
Fixpoint translate_from (pat : string) (skip : nat) : list tok :=
  match pat with
  | EmptyString => []
  | String c rest =>
      match skip with
      | S k => translate_from rest k
      | O =>
          if Ascii.eqb c "*" then Star :: translate_from rest 0
          else if Ascii.eqb c "?" then AnyChar :: translate_from rest 0
          else if Ascii.eqb c "[" then
            match class_end rest with
            | None => Lit "[" :: translate_from rest 0
            | Some j => class_of (String.substring 0 j rest) :: translate_from rest (S j)
            end
          else Lit c :: translate_from rest 0
      end
  end.

Definition translate (pat : string) : list tok := translate_from pat 0.

Definition in_range (c : ascii) (r : ascii * ascii) : bool :=
  ((N_of_ascii (fst r) <=? N_of_ascii c) && (N_of_ascii c <=? N_of_ascii (snd r)))%N.

Definition in_class (negated : bool) (items : list (ascii * ascii)) (c : ascii) : bool :=
  xorb negated (existsb (in_range c) items).

(** Does the whole of [s] match the token list? *)
Fixpoint matches (ts : list tok) (s : string) : bool :=
  match ts with
  | [] => match s with EmptyString => true | _ => false end
  | Star :: ts' =>
      (fix star (s : string) : bool :=
         matches ts' s ||
         match s with
         | EmptyString => false
         | String _ s' => star s'
         end) s
  | AnyChar :: ts' =>
      match s with
      | String _ s' => matches ts' s'
      | EmptyString => false
      end
  | Class negated items :: ts' =>
      match s with
      | String c s' => in_class negated items c && matches ts' s'
      | EmptyString => false
      end
  | Lit c :: ts' =>
      match s with
      | String d s' => Ascii.eqb c d && matches ts' s'
      | EmptyString => false
      end
  end.

Definition fnmatch (name pat : string) : bool := matches (translate pat) name.

End Glob.

(** ** The filesystem *)

(** An entry of the tree: a regular file with what reading it gives
    ([None]: the read is refused), or a directory with its listing in
    [scandir] order. *)
#[warnings="-register-all"]
Inductive node : Type :=
| File (content : option string)
| Dir (entries : list (string * node)).

(** A path: the components from the root of the tree. *)
Definition Path : Type := list string.

(** The exceptions the code can raise, each with the offending path. *)
Inductive exn : Type :=
| ValueError (p : Path)
| OSError (p : Path).

Inductive result (A : Type) : Type :=
| Ok (a : A)
| Raise (e : exn).
Arguments Ok {A} a.
Arguments Raise {A} e.

Definition bind {A B : Type} (m : result A) (k : A -> result B) : result B :=
  match m with
  | Ok a => k a
  | Raise e => Raise e
  end.

Notation "'do' x <- m ; k" := (bind m (fun x => k))
  (at level 10, x name, m at level 100, k at level 200).

(** [try: m except Exception: handler] *)
Definition try_except {A : Type} (m : result A) (handler : A) : A :=
  match m with
  | Ok a => a
  | Raise _ => handler
  end.

Module FS.

Fixpoint lookup_entry (name : string) (entries : list (string * node)) : option node :=
  match entries with
  | [] => None
  | (n, x) :: rest => if String.eqb n name then Some x else lookup_entry name rest
  end.

(** The entry a path leads to, if any. *)
Fixpoint resolve (fs : node) (p : Path) : option node :=
  match p with
  | [] => Some fs
  | c :: p' =>
      match fs with
      | Dir entries =>
          match lookup_entry c entries with
          | Some x => resolve x p'
          | None => None
          end
      | File _ => None
      end
  end.

(** [p.name]: the last component, empty for the root. *)
Definition name (p : Path) : string := List.last p EmptyString.

(** [p.joinpath(c)], also written [p / c] *)
Definition joinpath (p : Path) (c : string) : Path := p ++ [c].

Definition is_file (fs : node) (p : Path) : bool :=
  match resolve fs p with
  | Some (File _) => true
  | _ => false
  end.

Definition is_dir (fs : node) (p : Path) : bool :=
  match resolve fs p with
  | Some (Dir _) => true
  | _ => false
  end.

(** [p.read_text(encoding="utf-8", errors="ignore")] *)
Definition read_text (fs : node) (p : Path) : result string :=
  match resolve fs p with
  | Some (File (Some text)) => Ok text
  | _ => Raise (OSError p)
  end.

Definition node_is_dir (x : node) : bool :=
  match x with Dir _ => true | File _ => false end.

(** The directories a recursive glob visits: the starting directory,
    then every subdirectory in listing order, each followed by its own
    subdirectories. Each comes with its path relative to the start. *)
Fixpoint iterate_directories (rel : Path) (x : node) : list (Path * list (string * node)) :=
  match x with
  | File _ => []
  | Dir entries =>
      (rel, entries) ::
      (fix subdirs (es : list (string * node)) : list (Path * list (string * node)) :=
         match es with
         | [] => []
         | (n, child) :: es' => iterate_directories (rel ++ [n]) child ++ subdirs es'
         end) entries
  end.

(** The children of one directory whose name matches; with [dironly]
    (a pattern that ends in a slash) only directories count. *)
Definition select_from (pat : string) (dironly : bool)
    (d : Path * list (string * node)) : list Path :=
  map (fun e => fst d ++ [fst e])
      (List.filter (fun e => Glob.fnmatch (fst e) pat && (negb dironly || node_is_dir (snd e)))
              (snd d)).

(** A pattern with a trailing slash asks for directories. *)
Fixpoint split_trailing_slash (pat : string) : string * bool :=
  match pat with
  | EmptyString => (EmptyString, false)
  | String "/" EmptyString => (EmptyString, true)
  | String c rest =>
      let '(p, d) := split_trailing_slash rest in (String c p, d)
  end.

(** [list(p.rglob(pattern))] for a pattern of one component *)
Definition rglob (fs : node) (p : Path) (pattern : string) : list Path :=
  let '(pat, dironly) := split_trailing_slash pattern in
  match resolve fs p with
  | Some x => flat_map (select_from pat dironly) (iterate_directories p x)
  | None => []
  end.

End FS.

(** [any(paths)]: a [Path] object is always truthy. *)
Definition any_path (l : list Path) : bool :=
  match l with
  | [] => false
  | _ :: _ => true
  end.

(** ** [src/core/detectors.py] *)

Definition Detector : Type := node -> Path -> bool.
Definition StackInfo : Type := string * string * Detector.

(** At least one entry under [repo], at any depth, matches the glob. *)
Definition _has_file (fs : node) (repo : Path) (pattern : string) : bool :=
  any_path (FS.rglob fs repo pattern).

(** A regular file of that exact name lies directly in [repo]. *)
Definition _file_exists (fs : node) (repo : Path) (filename : string) : bool :=
  FS.is_file fs (FS.joinpath repo filename).

(** The root file holds the substring, compared without case; a missing
    file and a failed read both give [false]. *)
Definition _file_contains (fs : node) (repo : Path) (filename substring : string) : bool :=
  let path := FS.joinpath repo filename in
  if negb (FS.is_file fs path) then false
  else
    try_except
      (do content <- FS.read_text fs path;
       Ok (Str.isin (Str.lower substring) (Str.lower content)))
      false.

Definition _pyproject_has_tool (fs : node) (repo : Path) (tool_name : string) : bool :=
  _file_exists fs repo "pyproject.toml" &&
  _file_contains fs repo "pyproject.toml" ("[tool." +:+ tool_name +:+ "]").

Definition _detect_docker : Detector := fun fs repo =>
  _has_file fs repo "Dockerfile" || _has_file fs repo "dockerfile".

Definition _detect_node_npm : Detector := fun fs repo =>
  _file_exists fs repo "package.json" &&
  negb (_file_exists fs repo "yarn.lock" ||
        _file_exists fs repo "pnpm-lock.yaml" ||
        _file_exists fs repo "bun.lockb").

Definition _detect_node_yarn : Detector := fun fs repo =>
  _file_exists fs repo "yarn.lock".

Definition _detect_node_pnpm : Detector := fun fs repo =>
  _file_exists fs repo "pnpm-lock.yaml" || _file_exists fs repo "pnpm-workspace.yaml".

Definition _detect_node_bun : Detector := fun fs repo =>
  _file_exists fs repo "bun.lockb".

Definition _detect_deno : Detector := fun fs repo =>
  _has_file fs repo "deno.json*" || _has_file fs repo "import_map.json".

Definition _detect_python_uv : Detector := fun fs repo =>
  _pyproject_has_tool fs repo "uv".

Definition _detect_python_pdm : Detector := fun fs repo =>
  _pyproject_has_tool fs repo "pdm".

Definition _detect_python_poetry : Detector := fun fs repo =>
  _pyproject_has_tool fs repo "poetry".

Definition _detect_python_pipenv : Detector := fun fs repo =>
  _file_exists fs repo "Pipfile" || _file_exists fs repo "Pipfile.lock".

Definition _detect_python_pip : Detector := fun fs repo =>
  _has_file fs repo "requirements*.txt" ||
  _file_exists fs repo "setup.py" ||
  _file_exists fs repo "setup.cfg".

Definition _detect_go : Detector := fun fs repo =>
  _file_exists fs repo "go.mod".

Definition _detect_rust : Detector := fun fs repo =>
  _file_exists fs repo "Cargo.toml".

Definition _detect_java_maven : Detector := fun fs repo =>
  _file_exists fs repo "pom.xml".

Definition _detect_java_gradle : Detector := fun fs repo =>
  _has_file fs repo "*.gradle" ||
  _has_file fs repo "*.gradle.kts" ||
  _file_exists fs repo "gradlew" ||
  _file_exists fs repo "settings.gradle.kts".

Definition _detect_dotnet : Detector := fun fs repo =>
  _has_file fs repo "*.csproj" || _has_file fs repo "*.fsproj".

Definition _detect_php_composer : Detector := fun fs repo =>
  _file_exists fs repo "composer.json".

Definition _detect_elixir : Detector := fun fs repo =>
  _file_exists fs repo "mix.exs".

Definition _detect_ruby : Detector := fun fs repo =>
  _file_exists fs repo "Gemfile".

Definition _detect_flutter : Detector := fun fs repo =>
  _file_exists fs repo "pubspec.yaml".

Definition STACK_PRIORITY : list StackInfo :=
  [ ("docker",        "docker.yml.j2",        _detect_docker);

    ("node-bun",      "node-bun.yml.j2",      _detect_node_bun);
    ("node-pnpm",     "node-pnpm.yml.j2",     _detect_node_pnpm);
    ("node-yarn",     "node-yarn.yml.j2",     _detect_node_yarn);
    ("node-npm",      "node-npm.yml.j2",      _detect_node_npm);
    ("deno",          "deno.yml.j2",          _detect_deno);

    ("python-uv",     "python-uv.yml.j2",     _detect_python_uv);
    ("python-pdm",    "python-pdm.yml.j2",    _detect_python_pdm);
    ("python-poetry", "python-poetry.yml.j2", _detect_python_poetry);
    ("python-pipenv", "python-pipenv.yml.j2", _detect_python_pipenv);
    ("python-pip",    "python-pip.yml.j2",    _detect_python_pip);

    ("elixir",        "elixir.yml.j2",        _detect_elixir);
    ("ruby",          "ruby.yml.j2",          _detect_ruby);
    ("flutter",       "flutter.yml.j2",       _detect_flutter);

    ("java-maven",    "java-maven.yml.j2",    _detect_java_maven);
    ("java-gradle",   "java-gradle.yml.j2",   _detect_java_gradle);
    ("dotnet",        "dotnet.yml.j2",        _detect_dotnet);

    ("go",            "go.yml.j2",            _detect_go);
    ("rust",          "rust.yml.j2",          _detect_rust);
    ("php-composer",  "php-composer.yml.j2",  _detect_php_composer) ].

(** The context dict.  It has the same seven keys on every path of the
    code, so it is a record; [None] is Python's [None], an absent
    command. *)
Record Context : Type := mkContext {
  project_name : string;
  has_docker : bool;
  docker_tag : string;
  install_cmd : option string;
  build_cmd : option string;
  test_cmd : option string;
  artifact_path : option string
}.

(** [ctx["install_cmd"] = v] and its siblings *)
Definition set_install_cmd (v : option string) (ctx : Context) : Context :=
  mkContext (project_name ctx) (has_docker ctx) (docker_tag ctx)
            v (build_cmd ctx) (test_cmd ctx) (artifact_path ctx).
Definition set_build_cmd (v : option string) (ctx : Context) : Context :=
  mkContext (project_name ctx) (has_docker ctx) (docker_tag ctx)
            (install_cmd ctx) v (test_cmd ctx) (artifact_path ctx).
Definition set_test_cmd (v : option string) (ctx : Context) : Context :=
  mkContext (project_name ctx) (has_docker ctx) (docker_tag ctx)
            (install_cmd ctx) (build_cmd ctx) v (artifact_path ctx).
Definition set_artifact_path (v : option string) (ctx : Context) : Context :=
  mkContext (project_name ctx) (has_docker ctx) (docker_tag ctx)
            (install_cmd ctx) (build_cmd ctx) (test_cmd ctx) v.

(** The dict [detect_stack] returns. *)
Record Resolution : Type := mkResolution {
  stack : string;
  template : string;
  context : Context
}.

(** The context of a resolved stack.  The [match stack] statement is the
    chain of comparisons below; a name outside the catalogue leaves the
    initial dict untouched.  Only the ["node-npm"] arm can raise: it reads
    [package.json] outside any [try]. *)
Definition _build_context (fs : node) (repo : Path) (stack : string) : result Context :=
  let ctx :=
    {| project_name := Str.replace "_" "-" (Str.replace " " "-" (Str.lower (FS.name repo)));
       has_docker := _detect_docker fs repo;
       docker_tag := Str.lower (FS.name repo) +:+ ":latest";
       install_cmd := None;
       build_cmd := None;
       test_cmd := None;
       artifact_path := None |} in
  if String.eqb stack "docker" then
    Ok (set_build_cmd (Some "docker build -t ${{ steps.meta.outputs.tags }} .") ctx)
  else if String.eqb stack "node-npm" then
    let ctx := set_install_cmd (Some "npm ci --prefer-offline") ctx in
    do pkg_content <- FS.read_text fs (FS.joinpath repo "package.json");
    let ctx := set_build_cmd
                 (if Str.isin (Str.quoted "build") pkg_content then Some "npm run build" else None) ctx in
    let ctx := set_test_cmd
                 (if Str.isin (Str.quoted "test") pkg_content then Some "npm test" else None) ctx in
    Ok ctx
  else if String.eqb stack "node-yarn" then
    Ok (set_install_cmd (Some "yarn install --frozen-lockfile") ctx)
  else if String.eqb stack "node-pnpm" then
    Ok (set_install_cmd (Some "pnpm i --frozen-lockfile") ctx)
  else if String.eqb stack "node-bun" then
    Ok (set_install_cmd (Some "bun install --frozen-lockfile") ctx)
  else if String.eqb stack "deno" then
    let ctx := set_install_cmd (Some "deno cache main.ts") ctx in
    Ok (set_test_cmd (Some "deno test") ctx)
  else if String.eqb stack "python-uv" then
    let ctx := set_install_cmd (Some "uv sync --frozen") ctx in
    let ctx := set_test_cmd
                 (if _has_file fs repo "*test*.py" || _has_file fs repo "tests/"
                  then Some "uv run pytest" else None) ctx in
    Ok (set_build_cmd (if _pyproject_has_tool fs repo "uv" then Some "uv build" else None) ctx)
  else if String.eqb stack "python-pdm" then
    let ctx := set_install_cmd (Some "pdm sync --no-editable") ctx in
    Ok (set_test_cmd (Some "pdm run pytest") ctx)
  else if String.eqb stack "python-poetry" then
    let ctx := set_install_cmd (Some "poetry install --no-interaction --no-root") ctx in
    let ctx := set_build_cmd (Some "poetry build") ctx in
    Ok (set_test_cmd (Some "poetry run pytest") ctx)
  else if String.eqb stack "python-pipenv" then
    Ok (set_install_cmd (Some "pipenv install --deploy --ignore-pipfile") ctx)
  else if String.eqb stack "python-pip" then
    Ok (set_install_cmd (Some "pip install -r requirements.txt") ctx)
  else if String.eqb stack "go" then
    let ctx := set_install_cmd (Some "go mod download") ctx in
    let ctx := set_build_cmd (Some "go build -o app .") ctx in
    Ok (set_test_cmd (Some "go test ./...") ctx)
  else if String.eqb stack "rust" then
    let ctx := set_build_cmd (Some "cargo build --release") ctx in
    Ok (set_test_cmd (Some "cargo test") ctx)
  else if String.eqb stack "dotnet" then
    let ctx := set_install_cmd (Some "dotnet restore") ctx in
    let ctx := set_build_cmd (Some "dotnet publish -c Release -o out") ctx in
    Ok (set_artifact_path (Some "out") ctx)
  else if String.eqb stack "php-composer" then
    Ok (set_install_cmd (Some "composer install --no-dev --optimize-autoloader") ctx)
  else if String.eqb stack "elixir" then
    let ctx := set_install_cmd (Some "mix deps.get") ctx in
    Ok (set_test_cmd (Some "mix test") ctx)
  else if String.eqb stack "ruby" then
    Ok (set_install_cmd (Some "bundle install --frozen") ctx)
  else if String.eqb stack "flutter" then
    let ctx := set_install_cmd (Some "flutter pub get") ctx in
    Ok (set_build_cmd (Some "flutter build apk --release") ctx)
  else Ok ctx.

(** The loop over the priority table: the first entry whose detector
    holds returns at once, with the context built for it; [None] when the
    loop runs to its end. *)
Fixpoint first_match (fs : node) (repo_path : Path) (table : list StackInfo)
    : option (result Resolution) :=
  match table with
  | [] => None
  | (stack_name, template_name, detector) :: rest =>
      if detector fs repo_path then
        Some (do ctx <- _build_context fs repo_path stack_name;
              Ok {| stack := stack_name; template := template_name; context := ctx |})
      else first_match fs repo_path rest
  end.

Definition detect_stack (fs : node) (repo_path : Path) : result Resolution :=
  if negb (FS.is_dir fs repo_path) then Raise (ValueError repo_path)
  else
    match first_match fs repo_path STACK_PRIORITY with
    | Some r => r
    | None =>
        Ok {| stack := "unknown";
              template := "unknown.yml.j2";
              context :=
                {| project_name := Str.replace " " "-" (Str.lower (FS.name repo_path));
                   has_docker := _detect_docker fs repo_path;
                   docker_tag := Str.lower (FS.name repo_path) +:+ ":latest";
                   install_cmd := None;
                   build_cmd := None;
                   test_cmd := None;
                   artifact_path := None |} |}
    end.

(** ** [src/core/utils.py]: the env-file scanner *)

(** One turn of the loop over the lines of an example file. *)
Definition parse_line (env_vars : gmap string string) (line : string) : gmap string string :=
  let line := Str.strip line in
  if String.eqb line EmptyString || Str.startswith line "#" then env_vars
  else if Str.isin "=" line then
    match Str.split1 "=" line with
    | Some (key, value) => <[Str.strip key := Str.strip value]> env_vars
    | None => env_vars
    end
  else env_vars.

(** The variables of an example file.  Every exception of [open] and of
    the reads is caught (the message printed is not modelled) and leaves
    the empty dict; the stored text is what a strict UTF-8 read gives. *)
Definition parse_env_example (fs : node) (example_path : Path) : gmap string string :=
  try_except
    (do text <- FS.read_text fs example_path;
     Ok (fold_left parse_line (Str.lines text) ∅))
    ∅.

(** The dict [find_env_files] returns. *)
Record EnvFiles : Type := mkEnvFiles {
  danger : list Path;
  example : list Path;
  variables : gmap string (gmap string string)
}.

Definition danger_patterns : list string := ["*.env"; "*.env.*[!example]"].
Definition example_patterns : list string := ["*.env.example"; "*.env.*.example"].

Definition find_env_files (fs : node) (repo_path : Path) : EnvFiles :=
  let danger :=
    fold_left (fun acc pattern => acc ++ FS.rglob fs repo_path pattern) danger_patterns [] in
  let example_files :=
    fold_left (fun acc pattern => acc ++ FS.rglob fs repo_path pattern) example_patterns [] in
  let variables :=
    fold_left (fun vars file => <[FS.name file := parse_env_example fs file]> vars)
              example_files ∅ in
  {| danger := danger; example := example_files; variables := variables |}.

(** *** Removing entries

    [clean_repo_name] changes the filesystem, so it takes the tree and
    returns the new one.  Its recursion follows the tree found under the
    path; the model counts it down with [fuel], and [None] is a run that
    used it up. *)

(** The listing without its first entry of that name. *)
Fixpoint remove_entry (name : string) (entries : list (string * node)) : list (string * node) :=
  match entries with
  | [] => []
  | (n, x) :: rest =>
      if String.eqb n name then rest else (n, x) :: remove_entry name rest
  end.

(** The listing with the first entry of that name set to [x']. *)
Fixpoint replace_entry (name : string) (x' : node) (entries : list (string * node))
    : list (string * node) :=
  match entries with
  | [] => []
  | (n, x) :: rest =>
      if String.eqb n name then (n, x') :: rest else (n, x) :: replace_entry name x' rest
  end.

(** The tree with [f] applied to the listing of the directory at [dir];
    the tree itself when [dir] is no directory. *)
Fixpoint update_dir (fs : node) (dir : Path)
    (f : list (string * node) -> list (string * node)) : node :=
  match dir with
  | [] =>
      match fs with
      | Dir entries => Dir (f entries)
      | File content => File content
      end
  | c :: dir' =>
      match fs with
      | Dir entries =>
          match FS.lookup_entry c entries with
          | Some x => Dir (replace_entry c (update_dir x dir' f) entries)
          | None => fs
          end
      | File _ => fs
      end
  end.

(** [p.parent] *)
Definition parent (p : Path) : Path := removelast p.

(** The tree without the entry at [p]. *)
Definition without_entry (fs : node) (p : Path) : node :=
  update_dir fs (parent p) (remove_entry (FS.name p)).

(** [p.unlink(missing_ok=True)]: a missing path is let pass, a directory
    is refused. *)
Definition unlink (fs : node) (p : Path) : result node :=
  match FS.resolve fs p with
  | Some (File _) => Ok (without_entry fs p)
  | Some (Dir _) => Raise (OSError p)
  | None => Ok fs
  end.

(** [p.rmdir()]: only an empty directory other than the root goes. *)
Definition rmdir (fs : node) (p : Path) : result node :=
  match p with
  | [] => Raise (OSError p)
  | _ :: _ =>
      match FS.resolve fs p with
      | Some (Dir []) => Ok (without_entry fs p)
      | _ => Raise (OSError p)
      end
  end.

(** [list(p.iterdir())]: the children as they are when the loop starts. *)
Definition iterdir (fs : node) (p : Path) : result (list Path) :=
  match FS.resolve fs p with
  | Some (Dir entries) => Ok (map (fun e => FS.joinpath p (fst e)) entries)
  | _ => Raise (OSError p)
  end.

(** [for item in items: body(item)], threading the tree; an exception or
    a run out of fuel in the body ends the loop. *)
Fixpoint for_each (body : node -> Path -> option (result node)) (items : list Path) (fs : node)
    : option (result node) :=
  match items with
  | [] => Some (Ok fs)
  | item :: rest =>
      match body fs item with
      | Some (Ok fs') => for_each body rest fs'
      | stop => stop
      end
  end.

Fixpoint clean_repo_name (fuel : nat) (fs : node) (path : Path) : option (result node) :=
  match fuel with
  | O => None
  | S fuel' =>
      if FS.is_file fs path then Some (unlink fs path)
      else if FS.is_dir fs path then
        match iterdir fs path with
        | Raise e => Some (Raise e)
        | Ok items =>
            match for_each (clean_repo_name fuel') items fs with
            | Some (Ok fs') => Some (rmdir fs' path)
            | stop => stop
            end
        end
      else Some (Ok fs)
  end.

(** The argument of [get_repo_name]: a [Path], a [str], or a value of
    another type. *)
Inductive Source : Type :=
| SourcePath (p : Path)
| SourceStr (s : string)
| SourceOther.

(** The repository name of a clone source.  [pieces[-1]] is the last
    element of a list that [split] never leaves empty. *)
Definition get_repo_name (source : Source) : string :=
  match source with
  | SourcePath p =>
      if negb (String.eqb (FS.name p) EmptyString)
      then Str.replace ".git" EmptyString (FS.name p)
      else "unknown-repo"
  | SourceStr source =>
      let src := Str.replace "\" "/" source in
      if Str.startswith src "git@" || Str.startswith src "http" || Str.startswith src "https"
      then List.last (Str.split "/"
                        (List.last (Str.split ":" (Str.replace ".git" EmptyString src))
                                   EmptyString))
                     EmptyString
      else if Str.isin "/" src || Str.isin ".git" src
      then List.last (Str.split "/" (Str.replace ".git" EmptyString src)) EmptyString
      else "unknown-repo"
  | SourceOther => "unknown-repo"
  end.

(** ** Notions of the specification *)

(** [sub] occurs in [s]: the meaning of Python's [sub in s]. *)
Definition occurs (sub s : string) : Prop :=
  exists pre post : string, s = pre +:+ sub +:+ post.

(** Replacing one character by another is a map over the characters. *)
Fixpoint map_chars (f : ascii -> ascii) (s : string) : string :=
  match s with
  | EmptyString => EmptyString
  | String c s' => String (f c) (map_chars f s')
  end.

(** The names of all entries below a directory, at any depth: the
    listing of the tree, read off the tree itself and not through a
    glob. *)
Fixpoint entry_names (x : node) : list string :=
  match x with
  | File _ => []
  | Dir entries =>
      (fix names (es : list (string * node)) : list string :=
         match es with
         | [] => []
         | (n, child) :: es' => n :: entry_names child ++ names es'
         end) entries
  end.

Definition names_under (fs : node) (p : Path) : list string :=
  match FS.resolve fs p with
  | Some x => entry_names x
  | None => []
  end.

(** Some entry below [p], a file or a directory, has that exact name. *)
Definition has_entry_named (fs : node) (p : Path) (name : string) : bool :=
  existsb (String.eqb name) (names_under fs p).

(** A pattern without any of the glob characters. *)
Fixpoint is_literal (pat : string) : bool :=
  match pat with
  | EmptyString => true
  | String c rest =>
      negb (Ascii.eqb c "*" || Ascii.eqb c "?" || Ascii.eqb c "[") && is_literal rest
  end.

(** The project name as the specification words it: the directory name
    in lower case, every space and every underscore turned into a
    hyphen. *)
Definition project_name_spec (dirname : string) : string :=
  map_chars (fun c => if Ascii.eqb c " " || Ascii.eqb c "_" then "-"%char else c)
            (Str.lower dirname).

(** Every detector of a table fails on the repository. *)
Definition no_match (fs : node) (repo : Path) (table : list StackInfo) : Prop :=
  Forall (fun info : StackInfo => snd info fs repo = false) table.

(** The three fields every arm of [_build_context] leaves alone. *)
Definition generic_fields (fs : node) (repo : Path) (ctx : Context) : Prop :=
  project_name ctx = Str.replace "_" "-" (Str.replace " " "-" (Str.lower (FS.name repo)))
  /\ has_docker ctx = _detect_docker fs repo
  /\ docker_tag ctx = Str.lower (FS.name repo) +:+ ":latest".

(** What holds of every entry the parser records: the key has no equals
    sign, does not begin a comment, and neither key nor value has white
    space at its ends. *)
Definition clean_entry (key value : string) : Prop :=
  Str.isin "=" key = false
  /\ Str.startswith key "#" = false
  /\ Str.strip key = key
  /\ Str.strip value = value.

(** The piece after the last separator: [s.split(sep)[-1]]. *)
Definition last_piece (sep : ascii) (s : string) : string :=
  List.last (Str.split sep s) EmptyString.



(** ** Text in any casing

    What the specification calls a section text "in any casing": every
    letter a-z of the marker may stand in either case.  The definitions
    below do not use [Str.lower]. *)

Module Casing.

Definition upper_ascii (c : ascii) : ascii :=
  let n := N_of_ascii c in
  if ((97 <=? n) && (n <=? 122))%N then ascii_of_N (n - 32) else c.

Definition same_letter (c d : ascii) : bool :=
  Ascii.eqb d c || Ascii.eqb d (upper_ascii c).

(** [s] starts with a casing of [marker] *)
Fixpoint variant_prefix (marker s : string) : bool :=
  match marker with
  | EmptyString => true
  | String c marker' =>
      match s with
      | EmptyString => false
      | String d s' => same_letter c d && variant_prefix marker' s'
      end
  end.

(** a casing of [marker] occurs somewhere in [s] *)
Fixpoint contains_any_casing (marker s : string) : bool :=
  variant_prefix marker s ||
  match s with
  | EmptyString => false
  | String _ s' => contains_any_casing marker s'
  end.

(** A marker character in lower case: ASCII, and its own lower case. *)
Definition plain_char (c : ascii) : bool :=
  (N_of_ascii c <? 128)%N && Ascii.eqb (Str.lower_char c) c.

Fixpoint plain (marker : string) : bool :=
  match marker with
  | EmptyString => true
  | String c marker' => plain_char c && plain marker'
  end.

End Casing.

(** Every character, for checks by enumeration. *)
Definition all_chars : list ascii := map ascii_of_nat (seq 0 256).

(** ** Sample repositories *)

Definition env_text : string :=
  "# comment" +:+ String "010" (String "010"
  ("KEY=value" +:+ String "010" ("KEY2=a=b" +:+ String "010" EmptyString))).

(** A disk whose directory [/work/repo] holds exactly [.env],
    [.env.local] and [.env.example]. *)
Definition env_repo_fs : node :=
  Dir [("work", Dir [("repo", Dir [(".env", File (Some "SECRET=1"));
                                   (".env.local", File (Some "SECRET=2"));
                                   (".env.example", File (Some env_text))])])].

(** [/srv/shop]: a Go service with a Dockerfile next to [go.mod]. *)
Definition docker_go_fs : node :=
  Dir [("srv", Dir [("shop", Dir [("go.mod", File (Some "module shop"));
                                  ("Dockerfile", File (Some "FROM golang"));
                                  ("main.go", File (Some "package main"))])])].

(** [/srv/web]: [package.json] with a [bun.lockb]. *)
Definition bun_fs : node :=
  Dir [("srv", Dir [("web", Dir [("package.json", File (Some "{}"));
                                 ("bun.lockb", File (Some "lock"));
                                 ("src", Dir [("index.ts", File (Some "export {}"))])])])].

(** The text of a manifest with a build script and no test script. *)
Definition package_json_text : string :=
  "{ " +:+ Str.quoted "scripts" +:+ ": { " +:+ Str.quoted "build" +:+ ": "
  +:+ Str.quoted "tsc" +:+ " } }".

(** [/srv/app]: a plain npm project. *)
Definition npm_fs : node :=
  Dir [("srv", Dir [("app", Dir [("package.json", File (Some package_json_text))])])].

(** [/srv/app] again, with a [package.json] that cannot be read (for
    instance one whose mode denies the read to the current user). *)
Definition npm_unreadable_fs : node :=
  Dir [("srv", Dir [("app", Dir [("package.json", File None)])])].

(** [/srv/My_Cool_App] and [/srv/My Cool App]: empty directories;
    [/srv/notes.txt]: a file. *)
Definition empty_repos_fs : node :=
  Dir [("srv", Dir [("My_Cool_App", Dir []);
                    ("My Cool App", Dir []);
                    ("notes.txt", File (Some "hello"))])].

(** A manifest whose Poetry section header is written in capitals. *)
Definition poetry_text : string :=
  "[TOOL.POETRY]" +:+ String "010" "name = 'lib'".

(** [/srv/lib]: a Poetry project with that manifest. *)
Definition poetry_fs : node :=
  Dir [("srv", Dir [("lib", Dir [("pyproject.toml", File (Some poetry_text));
                                 ("README.md", File (Some "lib"))])])].

(** [/srv/mono]: a Go module whose only Dockerfile lies two directories
    down, under [examples/demo]. *)
Definition nested_docker_fs : node :=
  Dir [("srv", Dir [("mono", Dir [("go.mod", File (Some "module mono"));
                                  ("examples",
                                   Dir [("demo", Dir [("Dockerfile", File (Some "FROM scratch"))])])])])].

(** [/srv/api]: a .NET project, the project file in a subdirectory. *)
Definition dotnet_fs : node :=
  Dir [("srv", Dir [("api", Dir [("src", Dir [("Api.csproj", File (Some "<Project/>"))])])])].

(** [/srv/bank]: a Maven project. *)
Definition maven_fs : node :=
  Dir [("srv", Dir [("bank", Dir [("pom.xml", File (Some "<project/>"))])])].

(** A manifest that declares uv and Poetry at once. *)
Definition uv_poetry_text : string :=
  "[tool.poetry]" +:+ String "010" ("[Tool.UV]" +:+ String "010" EmptyString).

(** [/srv/tool]: a Python project with that manifest and a Pipfile. *)
Definition uv_fs : node :=
  Dir [("srv", Dir [("tool", Dir [("pyproject.toml", File (Some uv_poetry_text));
                                  ("Pipfile", File (Some "[packages]"))])])].

(** [/srv/ws]: a pnpm workspace without a lockfile. *)
Definition pnpm_workspace_fs : node :=
  Dir [("srv", Dir [("ws", Dir [("package.json", File (Some "{}"));
                                ("pnpm-workspace.yaml", File (Some "packages: []"))])])].

(** [/work/mono]: two packages, each with its own [.env.example]. *)
Definition two_examples_fs : node :=
  Dir [("work", Dir [("mono", Dir [("api", Dir [(".env.example", File (Some "API_KEY=1"))]);
                                   ("web", Dir [(".env.example", File (Some "WEB_URL=2"))])])])].

(** [/srv/My_Cool App]: a Go module in a directory with an underscore
    and a space in its name. *)
Definition cool_go_fs : node :=
  Dir [("srv", Dir [("My_Cool App", Dir [("go.mod", File (Some "module cool"))])])].

(** [/tmp/clone]: a fresh clone, two levels deep, next to [/tmp/keep]. *)
Definition clone_fs : node :=
  Dir [("tmp", Dir [("clone", Dir [("README.md", File (Some "hi"));
                                   ("src", Dir [("main.py", File (Some "print(1)"));
                                                ("pkg", Dir [])])]);
                    ("keep", Dir [("notes.txt", File (Some "mine"))])])].

(** * Properties *)

(** ** The model on small inputs *)

Example lower_example : Str.lower "My Cool_App [TOOL.Poetry]" = "my cool_app [tool.poetry]".
Proof. reflexivity. Qed.

Example replace_example :
  Str.replace "_" "-" (Str.replace " " "-" "a b_c  d") = "a-b-c--d".
Proof. reflexivity. Qed.

Example lines_example :
  Str.lines (String "a" (String "013" (String "010" (String "b" (String "010" (String "010" "c"))))))
  = ["a"; "b"; EmptyString; "c"].
Proof. reflexivity. Qed.

Example translate_danger :
  Glob.translate "*.env.*[!example]"
  = [Glob.Star; Glob.Lit "."; Glob.Lit "e"; Glob.Lit "n"; Glob.Lit "v"; Glob.Lit ".";
     Glob.Star;
     Glob.Class true [("e", "e"); ("x", "x"); ("a", "a"); ("m", "m"); ("p", "p");
                      ("l", "l"); ("e", "e")]%char].
Proof. reflexivity. Qed.

Example fnmatch_examples :
  Glob.fnmatch ".env" "*.env" = true /\
  Glob.fnmatch "prod.env" "*.env" = true /\
  Glob.fnmatch ".env.local" "*.env" = false /\
  Glob.fnmatch ".env.prod" "*.env.*[!example]" = true /\
  Glob.fnmatch ".env.local" "*.env.*[!example]" = false /\
  Glob.fnmatch ".env.example" "*.env.*[!example]" = false /\
  Glob.fnmatch "requirements-dev.txt" "requirements*.txt" = true /\
  Glob.fnmatch "deno.jsonc" "deno.json*" = true /\
  Glob.fnmatch "dockerfile" "Dockerfile" = false /\
  Glob.fnmatch "]]" "[]]]" = true /\
  Glob.fnmatch "[x" "[x" = true.
Proof. repeat split. Qed.

Example parse_env_example_sample :
  parse_env_example env_repo_fs ["work"; "repo"; ".env.example"]
  = <["KEY2" := "a=b"]> (<["KEY" := "value"]> ∅).
Proof. vm_compute. reflexivity. Qed.

Example parse_env_example_missing :
  parse_env_example env_repo_fs ["work"; "repo"; "absent"] = ∅.
Proof. reflexivity. Qed.

Example casing_example :
  Casing.contains_any_casing "[tool.poetry]" "name = 1 [TOOL.Poetry] x" = true /\
  Casing.contains_any_casing "[tool.uv]" "name = 1 [TOOL.Poetry] x" = false.
Proof. split; reflexivity. Qed.

(** ** Substrings *)

Section StringFacts.

Lemma all_chars_complete (c : ascii) : In c all_chars.
Proof.
  rewrite <- (ascii_nat_embedding c). apply in_map, in_seq.
  pose proof (nat_ascii_bounded c). lia.
Qed.

Lemma app_cons (a : ascii) (p q : string) : String a p +:+ q = String a (p +:+ q).
Proof. reflexivity. Qed.

Lemma prefix_iff (p s : string) :
  String.prefix p s = true <-> exists post, s = p +:+ post.
Proof.
  revert s. induction p as [|a p IH]; intros s.
  - split; [intros _; exists s; reflexivity | intros _; destruct s; reflexivity].
  - destruct s as [|b s]; cbn [String.prefix].
    + split; [discriminate | intros [post H]; discriminate H].
    + destruct (ascii_dec a b) as [->|Hab].
      * rewrite IH. split; intros [post H]; exists post.
        -- rewrite app_cons. now rewrite H.
        -- rewrite app_cons in H. now inversion H.
      * split; [discriminate | intros [post H]; rewrite app_cons in H; congruence].
Qed.

Lemma isin_occurs (sub s : string) : Str.isin sub s = true <-> occurs sub s.
Proof.
  induction s as [|c s IH]; cbn [Str.isin].
  - rewrite orb_false_r, prefix_iff. split.
    + intros [post H]. exists EmptyString, post. exact H.
    + intros [[|a pre] [post H]]; [exists post; exact H | discriminate H].
  - rewrite orb_true_iff, prefix_iff, IH. split.
    + intros [[post H]|[pre [post H]]].
      * exists EmptyString, post. exact H.
      * exists (String c pre), post. rewrite app_cons. now rewrite H.
    + intros [[|a pre] [post H]].
      * left. exists post. exact H.
      * right. exists pre, post. rewrite app_cons in H. now inversion H.
Qed.

Lemma isin_false_iff (sub s : string) : Str.isin sub s = false <-> ~ occurs sub s.
Proof. rewrite <- isin_occurs. destruct (Str.isin sub s); split; congruence. Qed.


Lemma replace_char (a b : ascii) (s : string) :
  Str.replace (String a EmptyString) (String b EmptyString) s
  = map_chars (fun c => if Ascii.eqb c a then b else c) s.
Proof.
  unfold Str.replace. induction s as [|c s IH]; [reflexivity|].
  cbn [Str.replace_from String.prefix map_chars String.length Nat.sub].
  destruct (ascii_dec a c) as [->|Hac].
  - rewrite Ascii.eqb_refl, <- IH. destruct s; reflexivity.
  - destruct (Ascii.eqb_spec c a) as [->|_]; [contradiction|].
    now rewrite IH.
Qed.

End StringFacts.

(** ** Casing *)

Section CasingFacts.


Lemma same_letter_table :
  forallb (fun c =>
    forallb (fun d =>
      implb (Casing.plain_char c)
            (Bool.eqb (Casing.same_letter c d) (Ascii.eqb c (Str.lower_char d))))
      all_chars) all_chars = true.
Proof. vm_compute. reflexivity. Qed.

Lemma same_letter_lower (c d : ascii) :
  Casing.plain_char c = true ->
  Casing.same_letter c d = Ascii.eqb c (Str.lower_char d).
Proof.
  intros Hc. pose proof same_letter_table as T.
  rewrite forallb_forall in T. specialize (T c (all_chars_complete c)).
  rewrite forallb_forall in T. specialize (T d (all_chars_complete d)).
  rewrite Hc in T. cbn [implb] in T. now apply eqb_prop in T.
Qed.

Lemma variant_prefix_lower (marker s : string) :
  Casing.plain marker = true ->
  Casing.variant_prefix marker s = String.prefix marker (Str.lower s).
Proof.
  revert s. induction marker as [|c marker IH]; intros s Hm.
  - destruct s; reflexivity.
  - cbn [Casing.plain] in Hm. apply andb_true_iff in Hm as [Hc Hm].
    destruct s as [|d s]; [reflexivity|].
    cbn [Casing.variant_prefix Str.lower String.prefix].
    rewrite (same_letter_lower c d Hc), (IH s Hm).
    destruct (ascii_dec c (Str.lower_char d)) as [E|E].
    + rewrite E, Ascii.eqb_refl. reflexivity.
    + apply Ascii.eqb_neq in E. rewrite E. reflexivity.
Qed.

(** The case-insensitive test of [_file_contains] finds exactly the
    casings of a lower-case marker. *)
Lemma contains_any_casing_lower (marker s : string) :
  Casing.plain marker = true ->
  Str.isin marker (Str.lower s) = Casing.contains_any_casing marker s.
Proof.
  intros Hm. induction s as [|d s IH].
  - cbn [Str.lower Str.isin Casing.contains_any_casing].
    now rewrite (variant_prefix_lower marker EmptyString Hm).
  - cbn [Str.lower Str.isin Casing.contains_any_casing].
    rewrite IH. f_equal.
    now rewrite (variant_prefix_lower marker (String d s) Hm).
Qed.

End CasingFacts.

(** ** Glob patterns *)

Section GlobFacts.

(** A pattern without glob characters matches its own text only. *)
Lemma fnmatch_literal (pat name : string) :
  is_literal pat = true -> Glob.fnmatch name pat = String.eqb pat name.
Proof.
  unfold Glob.fnmatch, Glob.translate. revert name.
  induction pat as [|c pat IH]; intros name H.
  - destruct name; reflexivity.
  - cbn [is_literal] in H. apply andb_true_iff in H as [Hc Hpat].
    apply negb_true_iff in Hc.
    apply orb_false_iff in Hc as [Hc Hbr]. apply orb_false_iff in Hc as [Hstar Hq].
    cbn [Glob.translate_from]. rewrite Hstar, Hq, Hbr.
    cbn [Glob.matches]. destruct name as [|d name]; [reflexivity|].
    cbn [String.eqb]. now rewrite IH.
Qed.

Lemma fnmatch_literal_eq (pat name : string) :
  is_literal pat = true -> Glob.fnmatch name pat = true -> name = pat.
Proof.
  intros H M. rewrite (fnmatch_literal pat name H) in M.
  symmetry. now apply String.eqb_eq.
Qed.

(** A pattern that ends in a class accepts only names whose last
    character is in the class. *)
Lemma matches_ends_in_class (negated : bool) (items : list (ascii * ascii))
    (ts : list Glob.tok) (s : string) :
  Glob.matches (ts ++ [Glob.Class negated items]) s = true ->
  exists stem c,
    s = stem +:+ String c EmptyString /\ Glob.in_class negated items c = true.
Proof.
  revert s. induction ts as [|t ts IH]; intros s.
  - cbn [app Glob.matches]. destruct s as [|c [|d s]]; try discriminate.
    + intros H. apply andb_true_iff in H as [H _]. now exists EmptyString, c.
    + intros H. apply andb_true_iff in H as [_ H]. discriminate H.
  - destruct t as [| |neg its|a]; cbn [app Glob.matches].
    + induction s as [|a s IHs].
      * rewrite orb_false_r. apply IH.
      * intros H. apply orb_true_iff in H as [H|H]; [now apply IH|].
        destruct (IHs H) as (stem & c & -> & Hc). now exists (String a stem), c.
    + destruct s as [|a s]; [discriminate|]. intros H.
      destruct (IH s H) as (stem & c & -> & Hc). now exists (String a stem), c.
    + destruct s as [|a s]; [discriminate|]. intros H.
      apply andb_true_iff in H as [_ H].
      destruct (IH s H) as (stem & c & -> & Hc). now exists (String a stem), c.
    + destruct s as [|b s]; [discriminate|]. intros H.
      apply andb_true_iff in H as [_ H].
      destruct (IH s H) as (stem & c & -> & Hc). now exists (String b stem), c.
Qed.

(** The second danger pattern of [find_env_files] rejects every name
    that ends in one of the letters of the word example. *)
Lemma danger_class_rejects (stem : string) (c : ascii) :
  Str.isin (String c EmptyString) "example" = true ->
  Glob.fnmatch (stem +:+ String c EmptyString) "*.env.*[!example]" = false.
Proof.
  intros Hc. destruct (Glob.fnmatch _ _) eqn:E; [|reflexivity].
  unfold Glob.fnmatch in E.
  change (Glob.translate "*.env.*[!example]")
    with ([Glob.Star; Glob.Lit "."; Glob.Lit "e"; Glob.Lit "n"; Glob.Lit "v"; Glob.Lit ".";
           Glob.Star]
          ++ [Glob.Class true (Glob.class_items "example")]) in E.
  apply matches_ends_in_class in E as (stem' & d & Hs & Hd).
  assert (d = c) as ->.
  { clear Hc Hd. revert stem' Hs. induction stem as [|a stem IH]; intros [|b stem'] Hs.
    - now injection Hs.
    - injection Hs as _ Hs. destruct stem'; discriminate Hs.
    - injection Hs as _ Hs. destruct stem; discriminate Hs.
    - injection Hs as _ Hs. now apply (IH stem'). }
  assert (forallb (fun a =>
            implb (Str.isin (String a EmptyString) "example")
                  (negb (Glob.in_class true (Glob.class_items "example") a)))
          all_chars = true) as T by (vm_compute; reflexivity).
  rewrite forallb_forall in T. specialize (T c (all_chars_complete c)).
  rewrite Hc, Hd in T. discriminate T.
Qed.

End GlobFacts.

(** ** The filesystem *)

Section FSFacts.

Lemma node_ind_nested (P : node -> Prop) :
  (forall content, P (File content)) ->
  (forall entries, Forall (fun e => P (snd e)) entries -> P (Dir entries)) ->
  forall x, P x.
Proof.
  intros HF HD. fix IH 1. intros [content|entries]; [apply HF|].
  apply HD. induction entries as [|[n x] entries IHes]; constructor.
  - apply IH.
  - exact IHes.
Qed.

Lemma resolve_app (fs : node) (p q : Path) :
  FS.resolve fs (p ++ q)
  = match FS.resolve fs p with
    | Some x => FS.resolve x q
    | None => None
    end.
Proof.
  revert fs. induction p as [|c p IH]; intros fs; [reflexivity|].
  cbn [app FS.resolve]. destruct fs as [content|entries]; [reflexivity|].
  destruct (FS.lookup_entry c entries); [apply IH | reflexivity].
Qed.

Lemma lookup_entry_In (c : string) (entries : list (string * node)) (x : node) :
  FS.lookup_entry c entries = Some x -> In (c, x) entries.
Proof.
  induction entries as [|[n y] entries IH]; cbn [FS.lookup_entry]; [discriminate|].
  destruct (String.eqb_spec n c) as [->|_].
  - intros [= ->]. now left.
  - intros H. right. now apply IH.
Qed.

(** A path to a child resolves through its parent directory. *)
Lemma resolve_child (fs : node) (p : Path) (c : string) (x : node) :
  FS.resolve fs (FS.joinpath p c) = Some x ->
  exists entries, FS.resolve fs p = Some (Dir entries) /\ FS.lookup_entry c entries = Some x.
Proof.
  unfold FS.joinpath. rewrite resolve_app.
  destruct (FS.resolve fs p) as [[content|entries]|]; cbn [FS.resolve]; try discriminate.
  destruct (FS.lookup_entry c entries) as [y|] eqn:E; [|discriminate].
  intros [= ->]. now exists entries.
Qed.

Lemma file_exists_child (fs : node) (repo : Path) (filename : string) :
  _file_exists fs repo filename = true ->
  exists entries content,
    FS.resolve fs repo = Some (Dir entries) /\ In (filename, File content) entries.
Proof.
  unfold _file_exists, FS.is_file.
  destruct (FS.resolve fs (FS.joinpath repo filename)) as [[content|es]|] eqn:E;
    try discriminate.
  intros _. apply resolve_child in E as [entries [Hp Hl]].
  exists entries, content. split; [exact Hp | now apply lookup_entry_In].
Qed.

Lemma file_exists_is_dir (fs : node) (repo : Path) (filename : string) :
  _file_exists fs repo filename = true -> FS.is_dir fs repo = true.
Proof.
  intros H. apply file_exists_child in H as [entries [content [Hp _]]].
  unfold FS.is_dir. now rewrite Hp.
Qed.

Lemma any_path_In (q : Path) (l : list Path) : In q l -> any_path l = true.
Proof. destruct l; [contradiction | reflexivity]. Qed.

Lemma any_path_true (l : list Path) : any_path l = true -> exists q, In q l.
Proof. destruct l as [|q l]; [discriminate | intros _; exists q; now left]. Qed.

(** An entry of the repository root that matches is found by the
    recursive glob. *)
Lemma has_file_root_entry (fs : node) (repo : Path) (pattern : string)
    (entries : list (string * node)) (n : string) (x : node) :
  FS.split_trailing_slash pattern = (pattern, false) ->
  FS.resolve fs repo = Some (Dir entries) ->
  In (n, x) entries ->
  Glob.fnmatch n pattern = true ->
  _has_file fs repo pattern = true.
Proof.
  intros Hs Hp Hin Hm. unfold _has_file, FS.rglob. rewrite Hs, Hp.
  cbn [FS.iterate_directories flat_map].
  apply (any_path_In (repo ++ [n])). apply in_or_app. left.
  unfold FS.select_from. cbn [fst snd].
  apply (in_map (fun e : string * node => repo ++ [fst e]) _ (n, x)).
  apply filter_In. split; [exact Hin|]. cbn [fst snd negb orb]. now rewrite Hm.
Qed.

(** Whatever a directory walk lists is an entry of the tree. *)
Lemma iterate_directories_names (x : node) :
  forall rel d es n c,
    In (d, es) (FS.iterate_directories rel x) -> In (n, c) es -> In n (entry_names x).
Proof.
  induction x as [content|entries IH] using node_ind_nested; intros rel d es n c;
    cbn [FS.iterate_directories entry_names]; [contradiction|].
  intros [E|Hsub] Hin.
  - injection E as _ <-. clear IH.
    induction entries as [|[m y] entries IHes]; [contradiction|].
    destruct Hin as [E|Hin].
    + injection E as -> _. now left.
    + right. apply in_or_app. right. now apply IHes.
  - induction entries as [|[m y] entries IHes]; [contradiction|].
    apply Forall_cons_iff in IH as [IHy IHrest]. cbn [snd] in IHy.
    apply in_app_or in Hsub as [Hy|Hrest].
    + right. apply in_or_app. left. exact (IHy _ _ _ _ _ Hy Hin).
    + right. apply in_or_app. right. now apply IHes.
Qed.

(** What the recursive glob finds is an entry of the tree whose name
    matches the pattern. *)
Lemma has_file_sound (fs : node) (repo : Path) (pattern : string) :
  _has_file fs repo pattern = true ->
  exists n, In n (names_under fs repo)
            /\ Glob.fnmatch n (fst (FS.split_trailing_slash pattern)) = true.
Proof.
  unfold _has_file, FS.rglob, names_under.
  destruct (FS.split_trailing_slash pattern) as [pat dironly].
  destruct (FS.resolve fs repo) as [x|]; [|discriminate].
  intros H. apply any_path_true in H as [q Hq].
  apply in_flat_map in Hq as [[d es] [Hd Hsel]].
  unfold FS.select_from in Hsel. cbn [fst snd] in Hsel.
  apply in_map_iff in Hsel as [[n c] [_ Hf]].
  apply filter_In in Hf as [Hin Hm]. cbn [fst snd] in Hm.
  apply andb_true_iff in Hm as [Hm _].
  exists n. split; [|exact Hm].
  exact (iterate_directories_names x repo d es n c Hd Hin).
Qed.

Lemma has_entry_named_false (fs : node) (repo : Path) (name : string) :
  has_entry_named fs repo name = false -> ~ In name (names_under fs repo).
Proof.
  unfold has_entry_named. intros H Hin.
  assert (existsb (String.eqb name) (names_under fs repo) = true) as E.
  { apply existsb_exists. exists name. split; [exact Hin | apply String.eqb_refl]. }
  congruence.
Qed.

(** Without an entry of that name, a glob for the literal name finds
    nothing. *)
Lemma has_file_literal_false (fs : node) (repo : Path) (name : string) :
  is_literal name = true ->
  FS.split_trailing_slash name = (name, false) ->
  has_entry_named fs repo name = false ->
  _has_file fs repo name = false.
Proof.
  intros Hl Hs Hn. destruct (_has_file fs repo name) eqn:E; [|reflexivity].
  apply has_file_sound in E as [n [Hin Hm]]. rewrite Hs in Hm. cbn [fst] in Hm.
  apply (fnmatch_literal_eq name n Hl) in Hm. subst n.
  now apply has_entry_named_false in Hn.
Qed.

End FSFacts.

(** ** The resolver *)

Section ResolverFacts.

Variable fs : node.
Variable repo : Path.

Ltac stack_arms :=
  unfold _build_context;
  repeat match goal with
         | |- context [String.eqb ?a ?b] => destruct (String.eqb_spec a b)
         end.

Lemma build_context_generic (name : string) (ctx : Context) :
  _build_context fs repo name = Ok ctx -> generic_fields fs repo ctx.
Proof.
  stack_arms; try (intros [= <-]; repeat split).
  destruct (FS.read_text fs (FS.joinpath repo "package.json")); cbn [bind];
    [intros [= <-]; repeat split | discriminate].
Qed.

(** [_build_context] raises in one case only: the unguarded read of
    [package.json] in the ["node-npm"] arm fails. *)
Lemma build_context_raise (name : string) (e : exn) :
  _build_context fs repo name = Raise e ->
  name = "node-npm" /\ FS.read_text fs (FS.joinpath repo "package.json") = Raise e.
Proof.
  stack_arms; try discriminate.
  destruct (FS.read_text fs (FS.joinpath repo "package.json")); cbn [bind];
    [discriminate | intros [= <-]; now split].
Qed.

Lemma build_context_node_npm :
  _build_context fs repo "node-npm"
  = do pkg_content <- FS.read_text fs (FS.joinpath repo "package.json");
    Ok {| project_name :=
            Str.replace "_" "-" (Str.replace " " "-" (Str.lower (FS.name repo)));
          has_docker := _detect_docker fs repo;
          docker_tag := Str.lower (FS.name repo) +:+ ":latest";
          install_cmd := Some "npm ci --prefer-offline";
          build_cmd :=
            if Str.isin (Str.quoted "build") pkg_content then Some "npm run build" else None;
          test_cmd :=
            if Str.isin (Str.quoted "test") pkg_content then Some "npm test" else None;
          artifact_path := None |}.
Proof. reflexivity. Qed.

Lemma first_match_none (table : list StackInfo) :
  first_match fs repo table = None <-> no_match fs repo table.
Proof.
  unfold no_match. induction table as [|[[n t] d] table IH]; cbn [first_match].
  - split; [constructor | reflexivity].
  - destruct (d fs repo) eqn:E.
    + split; [discriminate|]. intros H. apply Forall_cons_iff in H as [H _].
      cbn [snd] in H. congruence.
    + rewrite IH. split; [now constructor | intros H; now apply Forall_cons_iff in H].
Qed.

(** A match comes from the first entry whose detector holds. *)
Lemma first_match_some (table : list StackInfo) (r : result Resolution) :
  first_match fs repo table = Some r ->
  exists pre n t d post,
    table = pre ++ (n, t, d) :: post
    /\ no_match fs repo pre
    /\ d fs repo = true
    /\ r = (do ctx <- _build_context fs repo n;
            Ok {| stack := n; template := t; context := ctx |}).
Proof.
  unfold no_match. induction table as [|[[n t] d] table IH]; cbn [first_match]; [discriminate|].
  destruct (d fs repo) eqn:E.
  - intros [= <-]. exists [], n, t, d, table. repeat split; [constructor | exact E].
  - intros H. destruct (IH H) as (pre & n' & t' & d' & post & -> & Hpre & Hd & Hr).
    exists ((n, t, d) :: pre), n', t', d', post. repeat split; try assumption.
    now constructor.
Qed.

Lemma first_match_skip (pre rest : list StackInfo) :
  no_match fs repo pre ->
  first_match fs repo (pre ++ rest) = first_match fs repo rest.
Proof.
  unfold no_match. induction pre as [|[[n t] d] pre IH]; intros H; [reflexivity|].
  apply Forall_cons_iff in H as [Hd Hpre]. cbn [snd] in Hd.
  cbn [app first_match]. rewrite Hd. now apply IH.
Qed.

(** No stack of the catalogue is called ["unknown"]. *)
Lemma catalogue_names :
  Forall (fun info : StackInfo => fst (fst info) <> "unknown") STACK_PRIORITY.
Proof. unfold STACK_PRIORITY. repeat constructor; discriminate. Qed.

(** The ways [detect_stack] ends. *)
Lemma detect_stack_cases (out : result Resolution) :
  detect_stack fs repo = out ->
  (FS.is_dir fs repo = false /\ out = Raise (ValueError repo))
  \/ (FS.is_dir fs repo = true /\ no_match fs repo STACK_PRIORITY
      /\ exists ctx, out = Ok {| stack := "unknown"; template := "unknown.yml.j2";
                                 context := ctx |}
                     /\ project_name ctx = Str.replace " " "-" (Str.lower (FS.name repo))
                     /\ has_docker ctx = _detect_docker fs repo)
  \/ (FS.is_dir fs repo = true
      /\ exists n t d, In (n, t, d) STACK_PRIORITY /\ d fs repo = true
         /\ out = (do ctx <- _build_context fs repo n;
                   Ok {| stack := n; template := t; context := ctx |})).
Proof.
  unfold detect_stack. destruct (FS.is_dir fs repo); cbn [negb].
  - destruct (first_match fs repo STACK_PRIORITY) as [r|] eqn:E; intros <-.
    + right. right. split; [reflexivity|].
      apply first_match_some in E as (pre & n & t & d & post & Ht & _ & Hd & Hr).
      exists n, t, d. repeat split; try assumption.
      rewrite Ht. apply in_or_app. right. now left.
    + right. left. apply first_match_none in E. repeat split; [exact E|].
      eexists. repeat split.
  - intros <-. now left.
Qed.

End ResolverFacts.

(** ** Priority of the Docker and Node stacks *)

Lemma detect_docker_root_file (fs : node) (repo : Path) :
  FS.is_file fs (FS.joinpath repo "Dockerfile") = true -> _detect_docker fs repo = true.
Proof.
  intros H. apply file_exists_child in H as [entries [content [Hp Hin]]].
  unfold _detect_docker.
  rewrite (has_file_root_entry fs repo "Dockerfile" entries "Dockerfile" (File content));
    try reflexivity; assumption.
Qed.

Lemma detect_docker_no_entry (fs : node) (repo : Path) :
  has_entry_named fs repo "Dockerfile" = false ->
  has_entry_named fs repo "dockerfile" = false ->
  _detect_docker fs repo = false.
Proof.
  intros H1 H2. unfold _detect_docker.
  rewrite (has_file_literal_false fs repo "Dockerfile"), (has_file_literal_false fs repo "dockerfile");
    try reflexivity; assumption.
Qed.

(** C1: a repository with a file named Dockerfile in its root resolves to
    stack "docker", whatever else it holds; no other manifest is
    consulted. *)
Theorem C1_root_dockerfile_resolves_to_docker (fs : node) (repo : Path) :
  FS.is_file fs (FS.joinpath repo "Dockerfile") = true ->
  exists ctx,
    detect_stack fs repo
    = Ok {| stack := "docker"; template := "docker.yml.j2"; context := ctx |}
    /\ build_cmd ctx = Some "docker build -t ${{ steps.meta.outputs.tags }} ."
    /\ has_docker ctx = true.
Proof.
  intros H. pose proof (file_exists_is_dir fs repo "Dockerfile" H) as Hdir.
  pose proof (detect_docker_root_file fs repo H) as Hdocker.
  unfold detect_stack, STACK_PRIORITY. rewrite Hdir. cbn [negb first_match].
  rewrite Hdocker. eexists. split; [reflexivity|]. cbn [build_cmd has_docker set_build_cmd].
  split; [reflexivity | exact Hdocker].
Qed.

Lemma C1_witness :
  FS.is_file docker_go_fs (FS.joinpath ["srv"; "shop"] "Dockerfile") = true
  /\ FS.is_file docker_go_fs (FS.joinpath ["srv"; "shop"] "go.mod") = true
  /\ exists ctx,
       detect_stack docker_go_fs ["srv"; "shop"]
       = Ok {| stack := "docker"; template := "docker.yml.j2"; context := ctx |}
       /\ build_cmd ctx = Some "docker build -t ${{ steps.meta.outputs.tags }} ."
       /\ has_docker ctx = true.
Proof.
  split; [reflexivity|]. split; [reflexivity|].
  apply (C1_root_dockerfile_resolves_to_docker docker_go_fs ["srv"; "shop"]).
  reflexivity.
Defined.

(** C2: with package.json and bun.lockb in the root, and no entry named
    Dockerfile or dockerfile anywhere in the repository, the stack is
    "node-bun" and not "node-npm". *)
Theorem C2_bun_lockfile_resolves_to_node_bun (fs : node) (repo : Path) :
  FS.is_file fs (FS.joinpath repo "package.json") = true ->
  FS.is_file fs (FS.joinpath repo "bun.lockb") = true ->
  has_entry_named fs repo "Dockerfile" = false ->
  has_entry_named fs repo "dockerfile" = false ->
  exists r,
    detect_stack fs repo = Ok r
    /\ stack r = "node-bun" /\ stack r <> "node-npm"
    /\ template r = "node-bun.yml.j2"
    /\ install_cmd (context r) = Some "bun install --frozen-lockfile".
Proof.
  intros Hpkg Hbun Hd1 Hd2.
  pose proof (file_exists_is_dir fs repo "bun.lockb" Hbun) as Hdir.
  pose proof (detect_docker_no_entry fs repo Hd1 Hd2) as Hdocker.
  unfold detect_stack, STACK_PRIORITY. rewrite Hdir. cbn [negb first_match].
  rewrite Hdocker. unfold _detect_node_bun at 1, _file_exists. rewrite Hbun.
  eexists. split; [reflexivity|]. cbn. repeat split. discriminate.
Qed.

Lemma C2_witness :
  exists r,
    detect_stack bun_fs ["srv"; "web"] = Ok r
    /\ stack r = "node-bun" /\ stack r <> "node-npm"
    /\ template r = "node-bun.yml.j2"
    /\ install_cmd (context r) = Some "bun install --frozen-lockfile".
Proof.
  apply (C2_bun_lockfile_resolves_to_node_bun bun_fs ["srv"; "web"]); reflexivity.
Defined.

(** ** The fallback *)

(** C5: when no detector of the table holds on a directory, the result
    is the stack "unknown" with the template "unknown.yml.j2"; the four
    command fields are absent, and project_name, has_docker and docker_tag
    carry values.  The call returns; it does not raise. *)
Theorem C5_no_match_gives_unknown (fs : node) (repo : Path) :
  FS.is_dir fs repo = true ->
  no_match fs repo STACK_PRIORITY ->
  detect_stack fs repo
  = Ok {| stack := "unknown";
          template := "unknown.yml.j2";
          context :=
            {| project_name := Str.replace " " "-" (Str.lower (FS.name repo));
               has_docker := false;
               docker_tag := Str.lower (FS.name repo) +:+ ":latest";
               install_cmd := None;
               build_cmd := None;
               test_cmd := None;
               artifact_path := None |} |}.
Proof.
  intros Hdir Hno. unfold detect_stack. rewrite Hdir. cbn [negb].
  assert (_detect_docker fs repo = false) as Hdocker.
  { unfold no_match, STACK_PRIORITY in Hno. apply Forall_cons_iff in Hno as [H _]. exact H. }
  apply first_match_none in Hno. rewrite Hno, Hdocker. reflexivity.
Qed.

Lemma C5_witness :
  detect_stack empty_repos_fs ["srv"; "My Cool App"]
  = Ok {| stack := "unknown";
          template := "unknown.yml.j2";
          context :=
            {| project_name := "my-cool-app";
               has_docker := false;
               docker_tag := "my cool app:latest";
               install_cmd := None;
               build_cmd := None;
               test_cmd := None;
               artifact_path := None |} |}.
Proof.
  apply (C5_no_match_gives_unknown empty_repos_fs ["srv"; "My Cool App"]).
  - reflexivity.
  - unfold no_match, STACK_PRIORITY. repeat constructor.
Defined.

(** C10: whenever the result is the stack "unknown", has_docker is False:
    the fallback is reached only after the Docker detector, which also
    computes has_docker, has failed. *)
Theorem C10_unknown_has_no_docker (fs : node) (repo : Path) (r : Resolution) :
  detect_stack fs repo = Ok r ->
  stack r = "unknown" ->
  has_docker (context r) = false.
Proof.
  intros H Hs. apply detect_stack_cases in H as [[_ H]|[(_ & Hno & ctx & H & _ & Hd)|(_ & n & t & d & Hin & _ & H)]].
  - discriminate H.
  - injection H as ->. cbn [context]. rewrite Hd.
    unfold no_match, STACK_PRIORITY in Hno. apply Forall_cons_iff in Hno as [Hdocker _].
    exact Hdocker.
  - destruct (_build_context fs repo n) as [ctx|e]; cbn [bind] in H; [|discriminate H].
    injection H as ->. cbn [stack] in Hs. subst n.
    pose proof catalogue_names as Hnames. rewrite List.Forall_forall in Hnames.
    now apply Hnames in Hin.
Qed.

Lemma C10_witness :
  exists r,
    detect_stack empty_repos_fs ["srv"; "My_Cool_App"] = Ok r
    /\ stack r = "unknown"
    /\ has_docker (context r) = false.
Proof.
  eexists. split; [reflexivity|]. split; [reflexivity|].
  apply (C10_unknown_has_no_docker empty_repos_fs ["srv"; "My_Cool_App"]); reflexivity.
Defined.

(** ** The npm context *)

(** C3: when the result is the stack "node-npm", package.json was read,
    and build_cmd is present exactly when its text holds the quoted word
    "build", test_cmd exactly when it holds the quoted word "test";
    otherwise the field is absent. *)
Theorem C3_node_npm_commands_follow_manifest (fs : node) (repo : Path) (r : Resolution) :
  detect_stack fs repo = Ok r ->
  stack r = "node-npm" ->
  exists text,
    FS.read_text fs (FS.joinpath repo "package.json") = Ok text
    /\ (occurs (Str.quoted "build") text -> build_cmd (context r) = Some "npm run build")
    /\ (~ occurs (Str.quoted "build") text -> build_cmd (context r) = None)
    /\ (occurs (Str.quoted "test") text -> test_cmd (context r) = Some "npm test")
    /\ (~ occurs (Str.quoted "test") text -> test_cmd (context r) = None).
Proof.
  intros H Hs.
  apply detect_stack_cases in H as [[_ H]|[(_ & _ & ctx & H & _)|(_ & n & t & d & _ & _ & H)]].
  - discriminate H.
  - injection H as ->. discriminate Hs.
  - destruct (_build_context fs repo n) as [ctx|e] eqn:E; cbn [bind] in H; [|discriminate H].
    injection H as ->. cbn [stack] in Hs. subst n. cbn [context].
    rewrite build_context_node_npm in E.
    destruct (FS.read_text fs (FS.joinpath repo "package.json")) as [text|e];
      cbn [bind] in E; [|discriminate E].
    injection E as <-. exists text. cbn [build_cmd test_cmd].
    split; [reflexivity|].
    repeat split; intros Ho.
    + apply isin_occurs in Ho. now rewrite Ho.
    + apply isin_false_iff in Ho. now rewrite Ho.
    + apply isin_occurs in Ho. now rewrite Ho.
    + apply isin_false_iff in Ho. now rewrite Ho.
Qed.

Lemma C3_witness :
  exists r,
    detect_stack npm_fs ["srv"; "app"] = Ok r
    /\ stack r = "node-npm"
    /\ build_cmd (context r) = Some "npm run build"
    /\ test_cmd (context r) = None
    /\ exists text,
         FS.read_text npm_fs (FS.joinpath ["srv"; "app"] "package.json") = Ok text
         /\ (occurs (Str.quoted "build") text -> build_cmd (context r) = Some "npm run build")
         /\ (~ occurs (Str.quoted "build") text -> build_cmd (context r) = None)
         /\ (occurs (Str.quoted "test") text -> test_cmd (context r) = Some "npm test")
         /\ (~ occurs (Str.quoted "test") text -> test_cmd (context r) = None).
Proof.
  eexists. split; [reflexivity|]. do 3 (split; [reflexivity|]).
  apply (C3_node_npm_commands_follow_manifest npm_fs ["srv"; "app"]); reflexivity.
Defined.

(** The same from the side of the repository: a readable package.json in
    the root, none of the three lockfiles, and no stack of higher priority
    make the call return the npm result. *)
Lemma node_npm_returns (fs : node) (repo : Path) (text : string) :
  no_match fs repo (firstn 4 STACK_PRIORITY) ->
  _detect_node_npm fs repo = true ->
  FS.read_text fs (FS.joinpath repo "package.json") = Ok text ->
  detect_stack fs repo
  = Ok {| stack := "node-npm";
          template := "node-npm.yml.j2";
          context :=
            {| project_name :=
                 Str.replace "_" "-" (Str.replace " " "-" (Str.lower (FS.name repo)));
               has_docker := false;
               docker_tag := Str.lower (FS.name repo) +:+ ":latest";
               install_cmd := Some "npm ci --prefer-offline";
               build_cmd :=
                 if Str.isin (Str.quoted "build") text then Some "npm run build" else None;
               test_cmd :=
                 if Str.isin (Str.quoted "test") text then Some "npm test" else None;
               artifact_path := None |} |}.
Proof.
  intros Hno Hnpm Hread.
  assert (FS.is_dir fs repo = true) as Hdir.
  { unfold _detect_node_npm in Hnpm. apply andb_true_iff in Hnpm as [Hpkg _].
    exact (file_exists_is_dir fs repo "package.json" Hpkg). }
  assert (_detect_docker fs repo = false) as Hdocker.
  { unfold no_match, STACK_PRIORITY in Hno. cbn [firstn] in Hno.
    apply Forall_cons_iff in Hno as [H _]. exact H. }
  unfold detect_stack. rewrite Hdir. cbn [negb].
  change STACK_PRIORITY with (firstn 4 STACK_PRIORITY ++ skipn 4 STACK_PRIORITY).
  rewrite (first_match_skip fs repo _ _ Hno).
  unfold STACK_PRIORITY. cbn [skipn first_match]. rewrite Hnpm.
  rewrite build_context_node_npm, Hread, Hdocker. reflexivity.
Qed.

(** ** Python tool sections *)

Section PyprojectFacts.

Variable fs : node.
Variable repo : Path.
Variable text : string.
Hypothesis pyproject :
  FS.resolve fs (FS.joinpath repo "pyproject.toml") = Some (File (Some text)).

Lemma plain_lower (marker : string) :
  Casing.plain marker = true -> Str.lower marker = marker.
Proof.
  induction marker as [|c marker IH]; [reflexivity|].
  cbn [Casing.plain Str.lower]. intros H. apply andb_true_iff in H as [Hc Hm].
  unfold Casing.plain_char in Hc. apply andb_true_iff in Hc as [_ Hc].
  apply Ascii.eqb_eq in Hc. now rewrite Hc, IH.
Qed.

Lemma pyproject_is_file : _file_exists fs repo "pyproject.toml" = true.
Proof. unfold _file_exists, FS.is_file. now rewrite pyproject. Qed.

(** On a readable [pyproject.toml] the section test is the search for a
    casing of the section header. *)
Lemma pyproject_has_tool_casing (tool_name : string) :
  Casing.plain ("[tool." +:+ tool_name +:+ "]") = true ->
  _pyproject_has_tool fs repo tool_name
  = Casing.contains_any_casing ("[tool." +:+ tool_name +:+ "]") text.
Proof.
  intros Hplain. unfold _pyproject_has_tool. rewrite pyproject_is_file. cbn [andb].
  unfold _file_contains, FS.read_text.
  fold (_file_exists fs repo "pyproject.toml"). rewrite pyproject_is_file, pyproject.
  cbn [negb bind try_except]. rewrite (plain_lower _ Hplain).
  now apply contains_any_casing_lower.
Qed.

End PyprojectFacts.

(** C6: a root pyproject.toml whose text holds the header [tool.poetry]
    in some casing, and holds neither [tool.uv] nor [tool.pdm] in any
    casing, resolves to "python-poetry" when none of the stacks placed
    before the Python ones (docker, the four Node stacks, deno) matches. *)
Theorem C6_poetry_section_any_casing (fs : node) (repo : Path) (text : string) :
  FS.resolve fs (FS.joinpath repo "pyproject.toml") = Some (File (Some text)) ->
  Casing.contains_any_casing "[tool.poetry]" text = true ->
  Casing.contains_any_casing "[tool.uv]" text = false ->
  Casing.contains_any_casing "[tool.pdm]" text = false ->
  no_match fs repo (firstn 6 STACK_PRIORITY) ->
  exists ctx,
    detect_stack fs repo
    = Ok {| stack := "python-poetry"; template := "python-poetry.yml.j2"; context := ctx |}
    /\ install_cmd ctx = Some "poetry install --no-interaction --no-root"
    /\ build_cmd ctx = Some "poetry build"
    /\ test_cmd ctx = Some "poetry run pytest".
Proof.
  intros Hpy Hpoetry Huv Hpdm Hno.
  pose proof (file_exists_is_dir fs repo _ (pyproject_is_file fs repo text Hpy)) as Hdir.
  unfold detect_stack. rewrite Hdir. cbn [negb].
  change STACK_PRIORITY with (firstn 6 STACK_PRIORITY ++ skipn 6 STACK_PRIORITY).
  rewrite (first_match_skip fs repo _ _ Hno).
  unfold STACK_PRIORITY. cbn [skipn first_match].
  unfold _detect_python_uv, _detect_python_pdm, _detect_python_poetry.
  rewrite (pyproject_has_tool_casing fs repo text Hpy "uv" eq_refl).
  rewrite (pyproject_has_tool_casing fs repo text Hpy "pdm" eq_refl).
  rewrite (pyproject_has_tool_casing fs repo text Hpy "poetry" eq_refl).
  change ("[tool." +:+ "uv" +:+ "]") with "[tool.uv]".
  change ("[tool." +:+ "pdm" +:+ "]") with "[tool.pdm]".
  change ("[tool." +:+ "poetry" +:+ "]") with "[tool.poetry]".
  rewrite Huv, Hpdm, Hpoetry.
  eexists. split; [reflexivity|]. repeat split.
Qed.

Lemma C6_witness :
  exists ctx,
    detect_stack poetry_fs ["srv"; "lib"]
    = Ok {| stack := "python-poetry"; template := "python-poetry.yml.j2"; context := ctx |}
    /\ install_cmd ctx = Some "poetry install --no-interaction --no-root"
    /\ build_cmd ctx = Some "poetry build"
    /\ test_cmd ctx = Some "poetry run pytest".
Proof.
  apply (C6_poetry_section_any_casing poetry_fs ["srv"; "lib"] poetry_text).
  - reflexivity.
  - reflexivity.
  - reflexivity.
  - reflexivity.
  - unfold no_match, STACK_PRIORITY. cbn [firstn]. repeat constructor.
Defined.

(** ** The project name *)

Lemma map_chars_compose (f g : ascii -> ascii) (s : string) :
  map_chars g (map_chars f s) = map_chars (fun c => g (f c)) s.
Proof. induction s as [|c s IH]; [reflexivity|]. cbn [map_chars]. now rewrite IH. Qed.

Lemma map_chars_ext (f g : ascii -> ascii) (s : string) :
  (forall c, f c = g c) -> map_chars f s = map_chars g s.
Proof. intros H. induction s as [|c s IH]; [reflexivity|]. cbn [map_chars]. now rewrite H, IH. Qed.

(** The two replacements of [_build_context] give the name of the
    specification. *)
Lemma build_context_name_is_spec (dirname : string) :
  Str.replace "_" "-" (Str.replace " " "-" (Str.lower dirname)) = project_name_spec dirname.
Proof.
  unfold project_name_spec.
  rewrite (replace_char " " "-"), (replace_char "_" "-"), map_chars_compose.
  apply map_chars_ext. intros c.
  destruct (Ascii.eqb_spec c " ") as [->|_]; [reflexivity|]. cbn [orb].
  destruct (Ascii.eqb c "_"); reflexivity.
Qed.

(** Every result for a stack of the catalogue carries the normalised
    name. *)
Lemma project_name_catalogue_stack (fs : node) (repo : Path) (r : Resolution) :
  detect_stack fs repo = Ok r ->
  stack r <> "unknown" ->
  project_name (context r) = project_name_spec (FS.name repo).
Proof.
  intros H Hs.
  apply detect_stack_cases in H as [[_ H]|[(_ & _ & ctx & H & _)|(_ & n & t & d & _ & _ & H)]].
  - discriminate H.
  - injection H as ->. now contradiction Hs.
  - destruct (_build_context fs repo n) as [ctx|e] eqn:E; cbn [bind] in H; [|discriminate H].
    injection H as ->. cbn [context].
    apply build_context_generic in E as [E _]. rewrite E.
    apply build_context_name_is_spec.
Qed.

(** C4, at a directory the code gets wrong: for the empty directory
    My_Cool_App the result is the stack "unknown", and its project_name
    keeps the underscores, where the normalised name is my-cool-app.  The
    fallback dict replaces spaces only. *)
Theorem C4_unknown_stack_keeps_underscores :
  FS.is_dir empty_repos_fs ["srv"; "My_Cool_App"] = true
  /\ project_name_spec (FS.name ["srv"; "My_Cool_App"]) = "my-cool-app"
  /\ exists r,
       detect_stack empty_repos_fs ["srv"; "My_Cool_App"] = Ok r
       /\ stack r = "unknown"
       /\ project_name (context r) = "my_cool_app"
       /\ project_name (context r) <> project_name_spec (FS.name ["srv"; "My_Cool_App"]).
Proof.
  split; [reflexivity|]. split; [reflexivity|].
  eexists. split; [reflexivity|]. cbn [stack context project_name].
  split; [reflexivity|]. split; [reflexivity | discriminate].
Qed.

(** ** Errors *)

(** A [ValueError] is raised exactly for a path that is not a
    directory, and then no detector has run. *)
Lemma value_error_iff_not_dir (fs : node) (repo : Path) :
  (exists p, detect_stack fs repo = Raise (ValueError p)) <-> FS.is_dir fs repo = false.
Proof.
  split.
  - intros [p H].
    apply detect_stack_cases in H as [[Hd _]|[(_ & _ & ctx & H & _)|(_ & n & t & d & _ & _ & H)]].
    + exact Hd.
    + discriminate H.
    + destruct (_build_context fs repo n) as [ctx|e] eqn:E; cbn [bind] in H; [discriminate H|].
      apply build_context_raise in E as [_ E]. unfold FS.read_text in E.
      destruct (FS.resolve fs (FS.joinpath repo "package.json")) as [[[s|]|es]|];
        congruence.
  - intros Hd. exists repo. unfold detect_stack. now rewrite Hd.
Qed.

(** On a directory the only exception that escapes is the failed read
    of [package.json] for the ["node-npm"] stack. *)
Lemma directory_call_raises_only_on_manifest (fs : node) (repo : Path) (e : exn) :
  FS.is_dir fs repo = true ->
  detect_stack fs repo = Raise e ->
  _detect_node_npm fs repo = true
  /\ FS.read_text fs (FS.joinpath repo "package.json") = Raise e.
Proof.
  intros Hdir H. unfold detect_stack in H. rewrite Hdir in H. cbn [negb] in H.
  destruct (first_match fs repo STACK_PRIORITY) as [r|] eqn:F; [subst r | discriminate H].
  apply first_match_some in F as (pre & n & t & d & post & Ht & _ & Hd & Hr).
  destruct (_build_context fs repo n) as [ctx|e'] eqn:E; cbn [bind] in Hr; [discriminate Hr|].
  injection Hr as ->. apply build_context_raise in E as [-> E]. split; [|exact E].
  assert (In ("node-npm", t, d) STACK_PRIORITY) as Hin.
  { rewrite Ht. apply in_or_app. right. now left. }
  unfold STACK_PRIORITY in Hin. cbn [In] in Hin.
  repeat (destruct Hin as [Hin|Hin]; [try discriminate Hin|]); [|contradiction].
  injection Hin as _ <-. exact Hd.
Qed.

(** The guarded read: an unreadable root file counts as not holding the
    substring. *)
Lemma file_contains_unreadable (fs : node) (repo : Path) (filename substring : string) :
  FS.resolve fs (FS.joinpath repo filename) = Some (File None) ->
  _file_contains fs repo filename substring = false.
Proof.
  intros H. unfold _file_contains, FS.is_file, FS.read_text. now rewrite H.
Qed.


(** C7, at a directory the code gets wrong: [/srv/app] is a directory,
    yet the call raises, and what it raises is the [OSError] of the read
    of package.json, not the [ValueError] kept for bad paths. *)
Theorem C7_directory_call_can_raise :
  FS.is_dir npm_unreadable_fs ["srv"; "app"] = true
  /\ detect_stack npm_unreadable_fs ["srv"; "app"]
     = Raise (OSError ["srv"; "app"; "package.json"])
  /\ forall r, detect_stack npm_unreadable_fs ["srv"; "app"] <> Ok r.
Proof.
  split; [reflexivity|]. split; [reflexivity|]. intros r. discriminate.
Qed.

(** C8, at a repository the code gets wrong: the npm detector accepts the
    repository on the existence of package.json alone; the read made for
    the context then fails, and the failure reaches the caller of
    [detect_stack].  The guarded test of the same file gives [false]. *)
Theorem C8_manifest_read_failure_escapes :
  _detect_node_npm npm_unreadable_fs ["srv"; "app"] = true
  /\ FS.read_text npm_unreadable_fs (FS.joinpath ["srv"; "app"] "package.json")
     = Raise (OSError ["srv"; "app"; "package.json"])
  /\ _file_contains npm_unreadable_fs ["srv"; "app"] "package.json" (Str.quoted "build") = false
  /\ _build_context npm_unreadable_fs ["srv"; "app"] "node-npm"
     = Raise (OSError ["srv"; "app"; "package.json"])
  /\ detect_stack npm_unreadable_fs ["srv"; "app"]
     = Raise (OSError ["srv"; "app"; "package.json"]).
Proof. repeat split. Qed.

(** ** The env-file scanner *)

(** C9, at the repository of the claim: with exactly .env, .env.local
    and .env.example in the root, the danger list holds .env alone.  The
    class [!example] of the second pattern stands for one character that
    is none of e, x, a, m, p, l, so a name ending in l, like .env.local,
    is not matched.  The example list is as the claim has it. *)
Theorem C9_env_local_missing_from_danger :
  names_under env_repo_fs ["work"; "repo"] = [".env"; ".env.local"; ".env.example"]
  /\ danger (find_env_files env_repo_fs ["work"; "repo"]) = [["work"; "repo"; ".env"]]
  /\ ~ In ["work"; "repo"; ".env.local"] (danger (find_env_files env_repo_fs ["work"; "repo"]))
  /\ Glob.fnmatch ".env.local" "*.env.*[!example]" = false
  /\ example (find_env_files env_repo_fs ["work"; "repo"]) = [["work"; "repo"; ".env.example"]].
Proof.
  split; [reflexivity|]. split; [reflexivity|]. split; [|split; reflexivity].
  intros [H|[]]. discriminate H.
Qed.

(** * Further properties of the code *)

(** ** The recursive glob *)

Section RglobFacts.

(** Every entry of the tree sits in the listing of a directory of the
    walk. *)
Lemma entry_names_walked (x : node) :
  forall rel n,
    In n (entry_names x) ->
    exists d es c, In (d, es) (FS.iterate_directories rel x) /\ In (n, c) es.
Proof.
  induction x as [content|entries IH] using node_ind_nested; intros rel n;
    cbn [FS.iterate_directories entry_names]; [contradiction|].
  intros Hn.
  assert (In n (map fst entries)
          \/ exists m y, In (m, y) entries /\ In n (entry_names y)) as [Hroot|(m & y & Hy & Hsub)].
  { clear IH. induction entries as [|[m y] entries IHes]; [contradiction|].
    destruct Hn as [<-|Hn]; [left; now left|].
    apply in_app_or in Hn as [Hn|Hn].
    - right. exists m, y. split; [now left | exact Hn].
    - destruct (IHes Hn) as [H|(m' & y' & H1 & H2)].
      + left. now right.
      + right. exists m', y'. split; [now right | exact H2]. }
  - apply in_map_iff in Hroot as [[m c] [<- Hin]].
    exists rel, entries, c. split; [now left | exact Hin].
  - rewrite List.Forall_forall in IH. specialize (IH (m, y) Hy). cbn [snd] in IH.
    destruct (IH (rel ++ [m]) n Hsub) as (d & es & c & Hd & Hc).
    exists d, es, c. split; [|exact Hc]. right.
    clear IH Hn Hsub. induction entries as [|[m' y'] entries IHes]; [contradiction|].
    destruct Hy as [E|Hy].
    + injection E as -> ->. apply in_or_app. now left.
    + apply in_or_app. right. now apply IHes.
Qed.

(** The directories of a walk lie at or below its start. *)
Lemma iterate_directories_below (x : node) :
  forall rel d es,
    In (d, es) (FS.iterate_directories rel x) -> exists sub, d = rel ++ sub.
Proof.
  induction x as [content|entries IH] using node_ind_nested; intros rel d es;
    cbn [FS.iterate_directories]; [contradiction|].
  intros [E|Hsub].
  - injection E as <- _. exists []. now rewrite app_nil_r.
  - induction entries as [|[m y] entries IHes]; [contradiction|].
    apply Forall_cons_iff in IH as [IHy IHrest]. cbn [snd] in IHy.
    apply in_app_or in Hsub as [Hy|Hrest].
    + destruct (IHy _ _ _ Hy) as [sub ->]. exists (m :: sub). now rewrite <- app_assoc.
    + now apply IHes.
Qed.

(** What a recursive glob returns: a path strictly below the start whose
    last component matches the pattern. *)
Lemma rglob_sound (fs : node) (p q : Path) (pattern : string) :
  In q (FS.rglob fs p pattern) ->
  Glob.fnmatch (FS.name q) (fst (FS.split_trailing_slash pattern)) = true
  /\ exists rel, rel <> [] /\ q = p ++ rel.
Proof.
  unfold FS.rglob. destruct (FS.split_trailing_slash pattern) as [pat dironly].
  destruct (FS.resolve fs p) as [x|]; [|contradiction].
  intros Hq. apply in_flat_map in Hq as [[d es] [Hd Hsel]].
  unfold FS.select_from in Hsel. cbn [fst snd] in Hsel.
  apply in_map_iff in Hsel as [[n c] [<- Hf]]. cbn [fst].
  apply filter_In in Hf as [_ Hm]. cbn [fst snd] in Hm.
  apply andb_true_iff in Hm as [Hm _].
  unfold FS.name. rewrite last_last. split; [exact Hm|].
  apply iterate_directories_below in Hd as [sub ->].
  exists (sub ++ [n]). split; [now destruct sub | now rewrite app_assoc].
Qed.

End RglobFacts.

(** An entry at any depth whose name matches is found. *)
Lemma has_file_complete (fs : node) (repo : Path) (pattern n : string) :
  FS.split_trailing_slash pattern = (pattern, false) ->
  In n (names_under fs repo) ->
  Glob.fnmatch n pattern = true ->
  _has_file fs repo pattern = true.
Proof.
  intros Hs Hn Hm. unfold names_under in Hn. unfold _has_file, FS.rglob.
  rewrite Hs. destruct (FS.resolve fs repo) as [x|]; [|contradiction].
  destruct (entry_names_walked x repo n Hn) as (d & es & c & Hd & Hc).
  apply (any_path_In (d ++ [n])). apply in_flat_map. exists (d, es).
  split; [exact Hd|]. unfold FS.select_from. cbn [fst snd].
  apply (in_map (fun e : string * node => d ++ [fst e]) _ (n, c)).
  apply filter_In. split; [exact Hc|]. cbn [fst snd negb orb]. now rewrite Hm.
Qed.



(** ** Invariants of the resolver *)

(** A result for a stack of the catalogue comes from the first entry of
    the table whose detector holds. *)
Lemma resolved_first_match (fs : node) (repo : Path) (r : Resolution) :
  detect_stack fs repo = Ok r ->
  stack r <> "unknown" ->
  exists pre d post,
    STACK_PRIORITY = pre ++ (stack r, template r, d) :: post
    /\ no_match fs repo pre
    /\ d fs repo = true
    /\ _build_context fs repo (stack r) = Ok (context r).
Proof.
  unfold detect_stack. destruct (FS.is_dir fs repo); cbn [negb]; [|discriminate].
  destruct (first_match fs repo STACK_PRIORITY) as [out|] eqn:F.
  - intros -> _.
    apply first_match_some in F as (pre & n & t & d & post & Ht & Hpre & Hd & Hr).
    destruct (_build_context fs repo n) as [ctx|e] eqn:E; cbn [bind] in Hr; [|discriminate Hr].
    injection Hr as ->. cbn [stack template context]. now exists pre, d, post.
  - intros [= <-] Hs. now contradiction Hs.
Qed.

(** X2: first match wins.  A result for a stack of the catalogue is
    returned for a directory only, and comes from the entry of that name
    and template; the detector of that entry held, the detector of every
    entry before it failed, and the context is the one [_build_context]
    makes for the stack. *)
Theorem resolved_stack_is_first_match (fs : node) (repo : Path) (r : Resolution) :
  detect_stack fs repo = Ok r ->
  stack r <> "unknown" ->
  FS.is_dir fs repo = true
  /\ exists pre d post,
       STACK_PRIORITY = pre ++ (stack r, template r, d) :: post
       /\ no_match fs repo pre
       /\ d fs repo = true
       /\ _build_context fs repo (stack r) = Ok (context r).
Proof.
  intros H Hu. split; [|exact (resolved_first_match fs repo r H Hu)].
  unfold detect_stack in H. destruct (FS.is_dir fs repo); [reflexivity | discriminate H].
Qed.

Lemma resolved_stack_is_first_match_witness :
  exists r,
    detect_stack poetry_fs ["srv"; "lib"] = Ok r
    /\ FS.is_dir poetry_fs ["srv"; "lib"] = true
    /\ exists pre d post,
         STACK_PRIORITY = pre ++ (stack r, template r, d) :: post
         /\ no_match poetry_fs ["srv"; "lib"] pre
         /\ d poetry_fs ["srv"; "lib"] = true
         /\ _build_context poetry_fs ["srv"; "lib"] (stack r) = Ok (context r).
Proof.
  eexists. split; [reflexivity|].
  apply (resolved_stack_is_first_match poetry_fs ["srv"; "lib"]); [reflexivity | discriminate].
Defined.

(** The detector stored under a name of the table. *)
Lemma docker_entry (t : string) (d : Detector) :
  In ("docker", t, d) STACK_PRIORITY -> d = _detect_docker.
Proof.
  unfold STACK_PRIORITY. cbn [In].
  intros H. repeat (destruct H as [H|H]; [try discriminate H|]); [|contradiction].
  now injection H.
Qed.

Lemma python_uv_entry (t : string) (d : Detector) :
  In ("python-uv", t, d) STACK_PRIORITY -> d = _detect_python_uv.
Proof.
  unfold STACK_PRIORITY. cbn [In].
  intros H. repeat (destruct H as [H|H]; [try discriminate H|]); [|contradiction].
  now injection H.
Qed.

Lemma in_middle {A : Type} (pre post : list A) (x : A) : In x (pre ++ x :: post).
Proof. apply in_or_app. right. now left. Qed.

(** The stack "unknown" is the fallback: no detector held, and the
    context is the dict written out at the end of [detect_stack]. *)
Lemma unknown_is_fallback (fs : node) (repo : Path) (r : Resolution) :
  detect_stack fs repo = Ok r ->
  stack r = "unknown" ->
  no_match fs repo STACK_PRIORITY
  /\ r = {| stack := "unknown";
            template := "unknown.yml.j2";
            context :=
              {| project_name := Str.replace " " "-" (Str.lower (FS.name repo));
                 has_docker := _detect_docker fs repo;
                 docker_tag := Str.lower (FS.name repo) +:+ ":latest";
                 install_cmd := None;
                 build_cmd := None;
                 test_cmd := None;
                 artifact_path := None |} |}.
Proof.
  unfold detect_stack. destruct (FS.is_dir fs repo); cbn [negb]; [|discriminate].
  destruct (first_match fs repo STACK_PRIORITY) as [out|] eqn:F.
  - intros -> Hs.
    apply first_match_some in F as (pre & n & t & d & post & Ht & _ & _ & Hr).
    destruct (_build_context fs repo n) as [ctx|e]; cbn [bind] in Hr; [|discriminate Hr].
    injection Hr as ->. cbn [stack] in Hs. subst n.
    pose proof catalogue_names as Hnames. rewrite List.Forall_forall in Hnames.
    specialize (Hnames ("unknown", t, d)). cbn [fst] in Hnames.
    exfalso. apply Hnames; [|reflexivity]. rewrite Ht. apply in_middle.
  - intros [= <-] _. split; [|reflexivity]. now apply first_match_none.
Qed.

(** In every result has_docker is the value of the Docker detector. *)
Lemma has_docker_is_detector (fs : node) (repo : Path) (r : Resolution) :
  detect_stack fs repo = Ok r -> has_docker (context r) = _detect_docker fs repo.
Proof.
  intros H. destruct (String.eqb_spec (stack r) "unknown") as [Hu|Hu].
  - destruct (unknown_is_fallback fs repo r H Hu) as [_ ->]. reflexivity.
  - destruct (resolved_first_match fs repo r H Hu) as (_ & _ & _ & _ & _ & _ & Hctx).
    now apply build_context_generic in Hctx as (_ & -> & _).
Qed.

(** The stack is "docker" exactly when the Docker detector holds. *)
Lemma docker_stack_iff_detector (fs : node) (repo : Path) (r : Resolution) :
  detect_stack fs repo = Ok r ->
  (stack r = "docker" <-> _detect_docker fs repo = true).
Proof.
  intros H. destruct (String.eqb_spec (stack r) "unknown") as [Hu|Hu].
  - destruct (unknown_is_fallback fs repo r H Hu) as [Hno _]. rewrite Hu.
    unfold no_match, STACK_PRIORITY in Hno. apply Forall_cons_iff in Hno as [Hdocker _].
    cbn [snd] in Hdocker. rewrite Hdocker. split; discriminate.
  - destruct (resolved_first_match fs repo r H Hu) as (pre & d & post & Ht & Hpre & Hd & _).
    split.
    + intros Hs. rewrite Hs in Ht.
      assert (d = _detect_docker) as <-; [|exact Hd].
      apply (docker_entry (template r)). rewrite Ht. apply in_middle.
    + intros Htrue. destruct pre as [|first pre].
      * unfold STACK_PRIORITY in Ht. cbn [app] in Ht. now injection Ht.
      * unfold STACK_PRIORITY in Ht. cbn [app] in Ht. injection Ht as <- _.
        apply Forall_cons_iff in Hpre as [Hfirst _]. cbn [snd] in Hfirst. congruence.
Qed.

(** X3: in every result, has_docker is True exactly for the stack
    "docker": the Docker detector heads the table, so no other stack can
    win while it holds. *)
Theorem has_docker_iff_docker_stack (fs : node) (repo : Path) (r : Resolution) :
  detect_stack fs repo = Ok r ->
  (has_docker (context r) = true <-> stack r = "docker").
Proof.
  intros H. rewrite (has_docker_is_detector fs repo r H).
  symmetry. exact (docker_stack_iff_detector fs repo r H).
Qed.

Lemma has_docker_iff_docker_stack_witness :
  exists r,
    detect_stack docker_go_fs ["srv"; "shop"] = Ok r
    /\ (has_docker (context r) = true <-> stack r = "docker").
Proof.
  eexists. split; [reflexivity|].
  apply (has_docker_iff_docker_stack docker_go_fs ["srv"; "shop"]). reflexivity.
Defined.

Lemma has_file_literal (fs : node) (repo : Path) (name : string) :
  is_literal name = true ->
  FS.split_trailing_slash name = (name, false) ->
  _has_file fs repo name = has_entry_named fs repo name.
Proof.
  intros Hl Hs. destruct (has_entry_named fs repo name) eqn:E.
  - unfold has_entry_named in E. apply existsb_exists in E as [n [Hn E]].
    apply String.eqb_eq in E. subst n.
    apply (has_file_complete fs repo name name Hs Hn).
    rewrite (fnmatch_literal name name Hl). apply String.eqb_refl.
  - now apply has_file_literal_false.
Qed.

(** X4: a repository resolves to "docker" exactly when some entry, at
    any depth, file or directory, is named Dockerfile or dockerfile. *)
Theorem docker_stack_iff_entry_named_dockerfile (fs : node) (repo : Path) (r : Resolution) :
  detect_stack fs repo = Ok r ->
  (stack r = "docker"
   <-> has_entry_named fs repo "Dockerfile" || has_entry_named fs repo "dockerfile" = true).
Proof.
  intros H. rewrite (docker_stack_iff_detector fs repo r H).
  rewrite <- (has_file_literal fs repo "Dockerfile"), <- (has_file_literal fs repo "dockerfile");
    reflexivity.
Qed.

Lemma docker_stack_iff_witness :
  exists r,
    detect_stack nested_docker_fs ["srv"; "mono"] = Ok r
    /\ stack r = "docker"
    /\ (stack r = "docker"
        <-> has_entry_named nested_docker_fs ["srv"; "mono"] "Dockerfile"
            || has_entry_named nested_docker_fs ["srv"; "mono"] "dockerfile" = true).
Proof.
  eexists. split; [reflexivity|]. split; [reflexivity|].
  apply (docker_stack_iff_entry_named_dockerfile nested_docker_fs ["srv"; "mono"]). reflexivity.
Defined.

(** X5: in every result the template is the stack name followed by
    ".yml.j2", and the stack is "unknown" or a name of the table. *)
Theorem template_follows_stack (fs : node) (repo : Path) (r : Resolution) :
  detect_stack fs repo = Ok r ->
  template r = stack r +:+ ".yml.j2"
  /\ (stack r = "unknown" \/ In (stack r) (map (fun info : StackInfo => fst (fst info)) STACK_PRIORITY)).
Proof.
  intros H. destruct (String.eqb_spec (stack r) "unknown") as [Hu|Hu].
  - destruct (unknown_is_fallback fs repo r H Hu) as [_ ->]. split; [reflexivity | now left].
  - destruct (resolved_first_match fs repo r H Hu) as (pre & d & post & Ht & _).
    assert (In (stack r, template r, d) STACK_PRIORITY) as Hin
      by (rewrite Ht; apply in_middle).
    split.
    + assert (Forall (fun info : StackInfo => snd (fst info) = fst (fst info) +:+ ".yml.j2")
                     STACK_PRIORITY) as T by (unfold STACK_PRIORITY; repeat constructor).
      rewrite List.Forall_forall in T. exact (T _ Hin).
    + right. apply (in_map (fun info : StackInfo => fst (fst info)) _ _ Hin).
Qed.

Lemma template_follows_stack_witness :
  exists r,
    detect_stack bun_fs ["srv"; "web"] = Ok r
    /\ template r = stack r +:+ ".yml.j2"
    /\ (stack r = "unknown"
        \/ In (stack r) (map (fun info : StackInfo => fst (fst info)) STACK_PRIORITY)).
Proof.
  eexists. split; [reflexivity|].
  apply (template_follows_stack bun_fs ["srv"; "web"]). reflexivity.
Defined.

(** X6: in every result, for every stack and for "unknown" alike,
    docker_tag is the directory name in lower case followed by ":latest";
    unlike project_name it keeps spaces and underscores. *)
Theorem docker_tag_every_result (fs : node) (repo : Path) (r : Resolution) :
  detect_stack fs repo = Ok r ->
  docker_tag (context r) = Str.lower (FS.name repo) +:+ ":latest".
Proof.
  intros H. destruct (String.eqb_spec (stack r) "unknown") as [Hu|Hu].
  - destruct (unknown_is_fallback fs repo r H Hu) as [_ ->]. reflexivity.
  - destruct (resolved_first_match fs repo r H Hu) as (_ & _ & _ & _ & _ & _ & Hctx).
    now apply build_context_generic in Hctx as (_ & _ & ->).
Qed.

Lemma docker_tag_every_result_witness :
  exists r,
    detect_stack empty_repos_fs ["srv"; "My Cool App"] = Ok r
    /\ docker_tag (context r) = "my cool app:latest"
    /\ docker_tag (context r) = Str.lower (FS.name ["srv"; "My Cool App"]) +:+ ":latest".
Proof.
  eexists. split; [reflexivity|]. split; [reflexivity|].
  apply (docker_tag_every_result empty_repos_fs ["srv"; "My Cool App"]). reflexivity.
Defined.

(** ** The command table *)

Section CommandTable.

Variable fs : node.
Variable repo : Path.

Ltac table_cases Hin :=
  unfold STACK_PRIORITY in Hin; cbn [map fst In] in Hin;
  repeat (destruct Hin as [Hin|Hin]; [symmetry in Hin|]); [..|contradiction].

Ltac run_build_context E :=
  unfold _build_context in E; cbn [String.eqb Ascii.eqb Bool.eqb] in E;
  try (destruct (FS.read_text fs (FS.joinpath repo "package.json")); cbn [bind] in E;
       [|discriminate E]);
  injection E as <-.

(** The four command fields of each stack, read off the arms of
    [_build_context]; the stacks "java-maven" and "java-gradle" have no
    arm and get no command at all. *)
Lemma install_cmd_table (n : string) (ctx : Context) :
  In n (map (fun info : StackInfo => fst (fst info)) STACK_PRIORITY) ->
  _build_context fs repo n = Ok ctx ->
  (install_cmd ctx = None <-> In n ["docker"; "rust"; "java-maven"; "java-gradle"]).
Proof.
  intros Hin E. table_cases Hin; subst n; run_build_context E;
    cbn [install_cmd set_install_cmd set_build_cmd set_test_cmd set_artifact_path In];
    split; intros H; try discriminate H; try tauto;
    repeat (destruct H as [H|H]; [discriminate H|]); contradiction.
Qed.

Lemma artifact_path_table (n : string) (ctx : Context) :
  In n (map (fun info : StackInfo => fst (fst info)) STACK_PRIORITY) ->
  _build_context fs repo n = Ok ctx ->
  artifact_path ctx = if String.eqb n "dotnet" then Some "out" else None.
Proof.
  intros Hin E. table_cases Hin; subst n; run_build_context E; reflexivity.
Qed.

End CommandTable.

Lemma resolved_stack_in_table (fs : node) (repo : Path) (r : Resolution) :
  detect_stack fs repo = Ok r ->
  stack r <> "unknown" ->
  In (stack r) (map (fun info : StackInfo => fst (fst info)) STACK_PRIORITY)
  /\ _build_context fs repo (stack r) = Ok (context r).
Proof.
  intros H Hu.
  destruct (resolved_first_match fs repo r H Hu) as (pre & d & post & Ht & _ & _ & Hctx).
  split; [|exact Hctx].
  apply (in_map (fun info : StackInfo => fst (fst info)) _ (stack r, template r, d)).
  rewrite Ht. apply in_middle.
Qed.

(** X7: a result has no install command exactly for the stacks
    "docker", "rust", "java-maven", "java-gradle" and "unknown". *)
Theorem install_cmd_absent_iff (fs : node) (repo : Path) (r : Resolution) :
  detect_stack fs repo = Ok r ->
  (install_cmd (context r) = None
   <-> In (stack r) ["docker"; "rust"; "java-maven"; "java-gradle"; "unknown"]).
Proof.
  intros H. destruct (String.eqb_spec (stack r) "unknown") as [Hu|Hu].
  - destruct (unknown_is_fallback fs repo r H Hu) as [_ ->]. cbn [context install_cmd stack].
    split; [intros _; do 4 right; now left | reflexivity].
  - destruct (resolved_stack_in_table fs repo r H Hu) as [Hin Hctx].
    rewrite (install_cmd_table fs repo _ _ Hin Hctx). cbn [In]. split.
    + intros [E|[E|[E|[E|[]]]]]; rewrite <- E; tauto.
    + intros [E|[E|[E|[E|[E|[]]]]]]; try (rewrite <- E; tauto). now contradiction Hu.
Qed.

Lemma install_cmd_absent_iff_witness :
  exists r,
    detect_stack docker_go_fs ["srv"; "shop"] = Ok r
    /\ install_cmd (context r) = None
    /\ (install_cmd (context r) = None
        <-> In (stack r) ["docker"; "rust"; "java-maven"; "java-gradle"; "unknown"]).
Proof.
  eexists. split; [reflexivity|]. split; [reflexivity|].
  apply (install_cmd_absent_iff docker_go_fs ["srv"; "shop"]). reflexivity.
Defined.

(** X8: artifact_path is "out" for the stack "dotnet" and absent in
    every other result. *)
Theorem artifact_path_only_dotnet (fs : node) (repo : Path) (r : Resolution) :
  detect_stack fs repo = Ok r ->
  artifact_path (context r) = if String.eqb (stack r) "dotnet" then Some "out" else None.
Proof.
  intros H. destruct (String.eqb_spec (stack r) "unknown") as [Hu|Hu].
  - destruct (unknown_is_fallback fs repo r H Hu) as [_ ->]. reflexivity.
  - destruct (resolved_stack_in_table fs repo r H Hu) as [Hin Hctx].
    exact (artifact_path_table fs repo _ _ Hin Hctx).
Qed.

Lemma artifact_path_only_dotnet_witness :
  exists r,
    detect_stack dotnet_fs ["srv"; "api"] = Ok r
    /\ stack r = "dotnet"
    /\ artifact_path (context r) = if String.eqb (stack r) "dotnet" then Some "out" else None.
Proof.
  eexists. split; [reflexivity|]. split; [reflexivity|].
  apply (artifact_path_only_dotnet dotnet_fs ["srv"; "api"]). reflexivity.
Defined.

(** X9: the stacks "java-maven" and "java-gradle" have no arm in
    [_build_context]: their result carries no install, build or test
    command and no artifact path, like an "unknown" one. *)
Theorem java_stacks_have_no_commands (fs : node) (repo : Path) (r : Resolution) :
  detect_stack fs repo = Ok r ->
  stack r = "java-maven" \/ stack r = "java-gradle" ->
  install_cmd (context r) = None
  /\ build_cmd (context r) = None
  /\ test_cmd (context r) = None
  /\ artifact_path (context r) = None.
Proof.
  intros H Hs.
  assert (stack r <> "unknown") as Hu by (destruct Hs as [-> | ->]; discriminate).
  destruct (resolved_stack_in_table fs repo r H Hu) as [_ Hctx].
  destruct Hs as [Hs|Hs]; rewrite Hs in Hctx;
    unfold _build_context in Hctx; cbn [String.eqb Ascii.eqb Bool.eqb] in Hctx;
    injection Hctx as <-; repeat split.
Qed.

Lemma java_stacks_have_no_commands_witness :
  exists r,
    detect_stack maven_fs ["srv"; "bank"] = Ok r
    /\ stack r = "java-maven"
    /\ install_cmd (context r) = None
    /\ build_cmd (context r) = None
    /\ test_cmd (context r) = None
    /\ artifact_path (context r) = None.
Proof.
  eexists. split; [reflexivity|]. split; [reflexivity|].
  apply (java_stacks_have_no_commands maven_fs ["srv"; "bank"]); [reflexivity | now left].
Defined.

(** X10: a result for "python-uv" always has the build command: the
    second look for the [tool.uv] section made by [_build_context] cannot
    fail once the detector has held. *)
Theorem python_uv_always_builds (fs : node) (repo : Path) (r : Resolution) :
  detect_stack fs repo = Ok r ->
  stack r = "python-uv" ->
  build_cmd (context r) = Some "uv build"
  /\ install_cmd (context r) = Some "uv sync --frozen".
Proof.
  intros H Hs.
  assert (stack r <> "unknown") as Hu by (rewrite Hs; discriminate).
  destruct (resolved_first_match fs repo r H Hu) as (pre & d & post & Ht & _ & Hd & Hctx).
  rewrite Hs in Ht, Hctx.
  assert (d = _detect_python_uv) as ->.
  { apply (python_uv_entry (template r)). rewrite Ht. apply in_middle. }
  unfold _detect_python_uv in Hd.
  unfold _build_context in Hctx. cbn [String.eqb Ascii.eqb Bool.eqb] in Hctx.
  rewrite Hd in Hctx. injection Hctx as <-. split; reflexivity.
Qed.

Lemma python_uv_always_builds_witness :
  exists r,
    detect_stack uv_fs ["srv"; "tool"] = Ok r
    /\ build_cmd (context r) = Some "uv build"
    /\ install_cmd (context r) = Some "uv sync --frozen".
Proof.
  eexists. split; [reflexivity|].
  apply (python_uv_always_builds uv_fs ["srv"; "tool"]); reflexivity.
Defined.

(** ** Precedence among competing stacks *)

(** X11: the npm detector does not look at pnpm-workspace.yaml, so it
    can hold together with the pnpm one; the order of the table then
    decides, and a repository with package.json and pnpm-workspace.yaml
    (no Dockerfile anywhere) resolves to "node-pnpm". *)
Theorem pnpm_workspace_beats_npm (fs : node) (repo : Path) :
  _detect_node_npm fs repo = true ->
  FS.is_file fs (FS.joinpath repo "pnpm-workspace.yaml") = true ->
  has_entry_named fs repo "Dockerfile" = false ->
  has_entry_named fs repo "dockerfile" = false ->
  exists ctx,
    detect_stack fs repo
    = Ok {| stack := "node-pnpm"; template := "node-pnpm.yml.j2"; context := ctx |}
    /\ install_cmd ctx = Some "pnpm i --frozen-lockfile".
Proof.
  intros Hnpm Hws Hd1 Hd2.
  pose proof (file_exists_is_dir fs repo "pnpm-workspace.yaml" Hws) as Hdir.
  pose proof (detect_docker_no_entry fs repo Hd1 Hd2) as Hdocker.
  unfold _detect_node_npm in Hnpm. apply andb_true_iff in Hnpm as [_ Hlocks].
  apply negb_true_iff in Hlocks. apply orb_false_iff in Hlocks as [_ Hbun].
  unfold detect_stack, STACK_PRIORITY. rewrite Hdir. cbn [negb first_match].
  rewrite Hdocker. unfold _detect_node_bun at 1. rewrite Hbun.
  unfold _detect_node_pnpm at 1. fold (_file_exists fs repo "pnpm-workspace.yaml") in Hws.
  rewrite Hws, orb_true_r.
  eexists. split; reflexivity.
Qed.

Lemma pnpm_workspace_beats_npm_witness :
  _detect_node_npm pnpm_workspace_fs ["srv"; "ws"] = true
  /\ exists ctx,
       detect_stack pnpm_workspace_fs ["srv"; "ws"]
       = Ok {| stack := "node-pnpm"; template := "node-pnpm.yml.j2"; context := ctx |}
       /\ install_cmd ctx = Some "pnpm i --frozen-lockfile".
Proof.
  split; [reflexivity|].
  apply (pnpm_workspace_beats_npm pnpm_workspace_fs ["srv"; "ws"]); reflexivity.
Defined.

(** X12: among the Python stacks the [tool.uv] section wins: a readable
    root pyproject.toml that holds it in some casing resolves to
    "python-uv" whatever other tool sections or Python files are there,
    when docker, the Node stacks and deno do not match. *)
Theorem uv_section_wins (fs : node) (repo : Path) (text : string) :
  FS.resolve fs (FS.joinpath repo "pyproject.toml") = Some (File (Some text)) ->
  Casing.contains_any_casing "[tool.uv]" text = true ->
  no_match fs repo (firstn 6 STACK_PRIORITY) ->
  exists ctx,
    detect_stack fs repo
    = Ok {| stack := "python-uv"; template := "python-uv.yml.j2"; context := ctx |}
    /\ build_cmd ctx = Some "uv build".
Proof.
  intros Hpy Huv Hno.
  pose proof (file_exists_is_dir fs repo _ (pyproject_is_file fs repo text Hpy)) as Hdir.
  pose proof (pyproject_has_tool_casing fs repo text Hpy "uv" eq_refl) as Htool.
  change ("[tool." +:+ "uv" +:+ "]") with "[tool.uv]" in Htool. rewrite Huv in Htool.
  unfold detect_stack. rewrite Hdir. cbn [negb].
  change STACK_PRIORITY with (firstn 6 STACK_PRIORITY ++ skipn 6 STACK_PRIORITY).
  rewrite (first_match_skip fs repo _ _ Hno).
  unfold STACK_PRIORITY. cbn [skipn first_match].
  unfold _detect_python_uv. rewrite Htool.
  unfold _build_context. cbn [String.eqb Ascii.eqb Bool.eqb bind]. rewrite Htool.
  eexists. split; reflexivity.
Qed.

Lemma uv_section_wins_witness :
  Casing.contains_any_casing "[tool.poetry]" uv_poetry_text = true
  /\ exists ctx,
       detect_stack uv_fs ["srv"; "tool"]
       = Ok {| stack := "python-uv"; template := "python-uv.yml.j2"; context := ctx |}
       /\ build_cmd ctx = Some "uv build".
Proof.
  split; [reflexivity|].
  apply (uv_section_wins uv_fs ["srv"; "tool"] uv_poetry_text).
  - reflexivity.
  - reflexivity.
  - unfold no_match, STACK_PRIORITY. cbn [firstn]. repeat constructor.
Defined.

(** ** Errors and the project name, in general *)

(** X13: the call raises [ValueError] exactly when the path is not a
    directory, and the error carries the path that was given. *)
Theorem value_error_exactly_for_bad_path (fs : node) (repo : Path) :
  (FS.is_dir fs repo = false <-> detect_stack fs repo = Raise (ValueError repo))
  /\ forall p, detect_stack fs repo = Raise (ValueError p) -> p = repo.
Proof.
  assert (forall p, detect_stack fs repo = Raise (ValueError p) ->
                    FS.is_dir fs repo = false /\ p = repo) as Hp.
  { intros p H. assert (FS.is_dir fs repo = false) as Hd
      by (apply value_error_iff_not_dir; now exists p).
    split; [exact Hd|]. unfold detect_stack in H. rewrite Hd in H. cbn [negb] in H.
    now injection H. }
  split; [split|].
  - intros Hd. unfold detect_stack. now rewrite Hd.
  - intros H. now apply Hp in H.
  - intros p H. now apply Hp in H.
Qed.




(** X15 is [node_npm_returns]; here on the plain npm project. *)
Lemma node_npm_returns_witness :
  exists r,
    detect_stack npm_fs ["srv"; "app"] = Ok r
    /\ stack r = "node-npm"
    /\ install_cmd (context r) = Some "npm ci --prefer-offline"
    /\ build_cmd (context r) = Some "npm run build"
    /\ test_cmd (context r) = None.
Proof.
  eexists. split.
  - apply (node_npm_returns npm_fs ["srv"; "app"] package_json_text).
    + unfold no_match, STACK_PRIORITY. cbn [firstn]. repeat constructor.
    + reflexivity.
    + reflexivity.
  - repeat split.
Defined.

(** X16 is [project_name_catalogue_stack]; here on a directory whose
    name has an underscore and a space. *)
Lemma project_name_catalogue_stack_witness :
  exists r,
    detect_stack cool_go_fs ["srv"; "My_Cool App"] = Ok r
    /\ project_name (context r) = "my-cool-app"
    /\ project_name (context r) = project_name_spec (FS.name ["srv"; "My_Cool App"]).
Proof.
  eexists. split; [reflexivity|]. split; [reflexivity|].
  apply (project_name_catalogue_stack cool_go_fs ["srv"; "My_Cool App"]);
    [reflexivity | discriminate].
Defined.

(** ** The env-file scanner, in general *)

Section ScannerFacts.

(** A pattern that ends in a literal character accepts only names that
    end in that character. *)
Lemma matches_ends_in_lit (a : ascii) (ts : list Glob.tok) (s : string) :
  Glob.matches (ts ++ [Glob.Lit a]) s = true ->
  exists stem, s = stem +:+ String a EmptyString.
Proof.
  revert s. induction ts as [|t ts IH]; intros s.
  - cbn [app Glob.matches]. destruct s as [|c [|d s]]; try discriminate.
    + intros H. apply andb_true_iff in H as [H _]. apply Ascii.eqb_eq in H. subst c.
      now exists EmptyString.
    + intros H. apply andb_true_iff in H as [_ H]. discriminate H.
  - destruct t as [| |neg its|b]; cbn [app Glob.matches].
    + induction s as [|c s IHs].
      * rewrite orb_false_r. apply IH.
      * intros H. apply orb_true_iff in H as [H|H]; [now apply IH|].
        destruct (IHs H) as (stem & ->). now exists (String c stem).
    + destruct s as [|c s]; [discriminate|]. intros H.
      destruct (IH s H) as (stem & ->). now exists (String c stem).
    + destruct s as [|c s]; [discriminate|]. intros H.
      apply andb_true_iff in H as [_ H].
      destruct (IH s H) as (stem & ->). now exists (String c stem).
    + destruct s as [|c s]; [discriminate|]. intros H.
      apply andb_true_iff in H as [_ H].
      destruct (IH s H) as (stem & ->). now exists (String c stem).
Qed.

Lemma last_char_unique (s t : string) (c d : ascii) :
  s +:+ String c EmptyString = t +:+ String d EmptyString -> c = d.
Proof.
  revert t. induction s as [|a s IH]; intros [|b t] H.
  - now injection H.
  - injection H as _ H. destruct t; discriminate H.
  - injection H as _ H. destruct s; discriminate H.
  - injection H as _ H. now apply (IH t).
Qed.

Variable fs : node.
Variable repo_path : Path.

Lemma danger_is_two_globs :
  danger (find_env_files fs repo_path)
  = FS.rglob fs repo_path "*.env" ++ FS.rglob fs repo_path "*.env.*[!example]".
Proof. reflexivity. Qed.

Lemma example_is_two_globs :
  example (find_env_files fs repo_path)
  = FS.rglob fs repo_path "*.env.example" ++ FS.rglob fs repo_path "*.env.*.example".
Proof. reflexivity. Qed.

Lemma danger_name_last_char (q : Path) :
  In q (danger (find_env_files fs repo_path)) ->
  exists stem c,
    FS.name q = stem +:+ String c EmptyString
    /\ Str.isin (String c EmptyString) "example" = false.
Proof.
  rewrite danger_is_two_globs. intros H. apply in_app_or in H as [H|H];
    apply rglob_sound in H as [Hm _]; cbn [FS.split_trailing_slash fst] in Hm;
    unfold Glob.fnmatch in Hm.
  - change (Glob.translate "*.env")
      with ([Glob.Star; Glob.Lit "."; Glob.Lit "e"; Glob.Lit "n"] ++ [Glob.Lit "v"]) in Hm.
    apply matches_ends_in_lit in Hm as [stem Hs]. now exists stem, "v"%char.
  - change (Glob.translate "*.env.*[!example]")
      with ([Glob.Star; Glob.Lit "."; Glob.Lit "e"; Glob.Lit "n"; Glob.Lit "v"; Glob.Lit ".";
             Glob.Star]
            ++ [Glob.Class true (Glob.class_items "example")]) in Hm.
    apply matches_ends_in_class in Hm as (stem & c & Hs & Hc).
    exists stem, c. split; [exact Hs|].
    destruct (Str.isin (String c EmptyString) "example") eqn:E; [|reflexivity].
    pose proof (danger_class_rejects stem c E) as R. unfold Glob.fnmatch in R.
    assert (forallb (fun a =>
              implb (Glob.in_class true (Glob.class_items "example") a)
                    (negb (Str.isin (String a EmptyString) "example")))
            all_chars = true) as T by (vm_compute; reflexivity).
    rewrite forallb_forall in T. specialize (T c (all_chars_complete c)).
    rewrite Hc, E in T. discriminate T.
Qed.

Lemma example_name_last_char (q : Path) :
  In q (example (find_env_files fs repo_path)) ->
  exists stem, FS.name q = stem +:+ String "e" EmptyString.
Proof.
  rewrite example_is_two_globs. intros H. apply in_app_or in H as [H|H];
    apply rglob_sound in H as [Hm _]; cbn [FS.split_trailing_slash fst] in Hm;
    unfold Glob.fnmatch in Hm.
  - change (Glob.translate "*.env.example")
      with ([Glob.Star; Glob.Lit "."; Glob.Lit "e"; Glob.Lit "n"; Glob.Lit "v"; Glob.Lit ".";
             Glob.Lit "e"; Glob.Lit "x"; Glob.Lit "a"; Glob.Lit "m"; Glob.Lit "p"; Glob.Lit "l"]
            ++ [Glob.Lit "e"]) in Hm.
    now apply matches_ends_in_lit in Hm.
  - change (Glob.translate "*.env.*.example")
      with ([Glob.Star; Glob.Lit "."; Glob.Lit "e"; Glob.Lit "n"; Glob.Lit "v"; Glob.Lit ".";
             Glob.Star; Glob.Lit ".";
             Glob.Lit "e"; Glob.Lit "x"; Glob.Lit "a"; Glob.Lit "m"; Glob.Lit "p"; Glob.Lit "l"]
            ++ [Glob.Lit "e"]) in Hm.
    now apply matches_ends_in_lit in Hm.
Qed.

End ScannerFacts.

(** X17: no entry whose name ends in one of the letters e, x, a, m, p, l
    is ever put on the danger list, whatever stands before that letter:
    the class at the end of the second pattern refuses the last character,
    and the first pattern asks for a final v. *)
Theorem danger_never_ends_in_example_letter (fs : node) (repo_path q : Path)
    (stem : string) (c : ascii) :
  FS.name q = stem +:+ String c EmptyString ->
  Str.isin (String c EmptyString) "example" = true ->
  ~ In q (danger (find_env_files fs repo_path)).
Proof.
  intros Hq Hc Hin. apply danger_name_last_char in Hin as (stem' & d & Hs & Hd).
  rewrite Hq in Hs. apply last_char_unique in Hs. subst d. congruence.
Qed.

Lemma danger_never_ends_in_example_letter_witness :
  ~ In ["work"; "repo"; ".env.local"] (danger (find_env_files env_repo_fs ["work"; "repo"])).
Proof.
  apply (danger_never_ends_in_example_letter env_repo_fs ["work"; "repo"]
           ["work"; "repo"; ".env.local"] ".env.loca" "l"); reflexivity.
Defined.

(** X18: the two lists never share a path: what is reported as
    dangerous is not reported as an example file. *)
Theorem danger_and_example_disjoint (fs : node) (repo_path q : Path) :
  In q (danger (find_env_files fs repo_path)) ->
  ~ In q (example (find_env_files fs repo_path)).
Proof.
  intros Hd He. apply example_name_last_char in He as [stem Hs].
  apply danger_name_last_char in Hd as (stem' & d & Hs' & Hd).
  rewrite Hs in Hs'. apply last_char_unique in Hs'. subst d. discriminate Hd.
Qed.

Lemma danger_and_example_disjoint_witness :
  In ["work"; "repo"; ".env"] (danger (find_env_files env_repo_fs ["work"; "repo"]))
  /\ ~ In ["work"; "repo"; ".env"] (example (find_env_files env_repo_fs ["work"; "repo"])).
Proof.
  assert (In ["work"; "repo"; ".env"] (danger (find_env_files env_repo_fs ["work"; "repo"])))
    as H by (now left).
  split; [exact H|].
  exact (danger_and_example_disjoint env_repo_fs ["work"; "repo"] ["work"; "repo"; ".env"] H).
Defined.

(** X19: on a path that is not a directory (missing, or a file) the
    scanner reports nothing and raises nothing. *)
Theorem find_env_files_outside_directory (fs : node) (repo_path : Path) :
  FS.is_dir fs repo_path = false ->
  find_env_files fs repo_path = {| danger := []; example := []; variables := ∅ |}.
Proof.
  intros Hd.
  assert (forall pattern, FS.rglob fs repo_path pattern = []) as Hg.
  { intros pattern. unfold FS.rglob, FS.is_dir in *.
    destruct (FS.split_trailing_slash pattern) as [pat dironly].
    destruct (FS.resolve fs repo_path) as [[content|entries]|]; try reflexivity.
    discriminate Hd. }
  unfold find_env_files, danger_patterns, example_patterns. cbn [fold_left].
  now rewrite !Hg.
Qed.

Lemma find_env_files_outside_directory_witness :
  find_env_files env_repo_fs ["work"; "repo"; ".env"]
  = {| danger := []; example := []; variables := ∅ |}.
Proof.
  apply (find_env_files_outside_directory env_repo_fs ["work"; "repo"; ".env"]). reflexivity.
Defined.

(** X20: every path of either list lies strictly below the directory
    that was scanned. *)
Theorem reported_paths_below_root (fs : node) (repo_path q : Path) :
  In q (danger (find_env_files fs repo_path)) \/ In q (example (find_env_files fs repo_path)) ->
  exists rel, rel <> [] /\ q = repo_path ++ rel.
Proof.
  rewrite danger_is_two_globs, example_is_two_globs.
  intros [H|H]; apply in_app_or in H as [H|H]; now apply rglob_sound in H as [_ H].
Qed.

Lemma reported_paths_below_root_witness :
  exists rel, rel <> [] /\ ["work"; "repo"; ".env.example"] = ["work"; "repo"] ++ rel.
Proof.
  apply (reported_paths_below_root env_repo_fs ["work"; "repo"] ["work"; "repo"; ".env.example"]).
  right. now left.
Defined.

(** ** The variables dict *)

Section VariablesFacts.

Variable fs : node.

Lemma fold_variables_dom (files : list Path) (vars : gmap string (gmap string string)) :
  dom (fold_left (fun vars file => <[FS.name file := parse_env_example fs file]> vars) files vars)
  = dom vars ∪ list_to_set (map FS.name files).
Proof.
  revert vars. induction files as [|f files IH]; intros vars; cbn [fold_left map list_to_set].
  - now rewrite (right_id_L ∅ (∪)).
  - rewrite IH, dom_insert_L. now rewrite (comm_L (∪) {[FS.name f]} (dom vars)), (assoc_L (∪)).
Qed.

Lemma fold_variables_other (files : list Path) (vars : gmap string (gmap string string))
    (k : string) :
  Forall (fun g => FS.name g <> k) files ->
  fold_left (fun vars file => <[FS.name file := parse_env_example fs file]> vars) files vars !! k
  = vars !! k.
Proof.
  revert vars. induction files as [|f files IH]; intros vars H; cbn [fold_left]; [reflexivity|].
  apply Forall_cons_iff in H as [Hf H]. rewrite (IH _ H). now apply lookup_insert_ne.
Qed.

Lemma variables_is_fold (repo_path : Path) :
  variables (find_env_files fs repo_path)
  = fold_left (fun vars file => <[FS.name file := parse_env_example fs file]> vars)
              (example (find_env_files fs repo_path))
              (∅ : gmap string (gmap string string)).
Proof. reflexivity. Qed.

End VariablesFacts.

(** X21: the keys of the variables dict are exactly the file names of
    the example list. *)
Theorem variables_keys_are_example_names (fs : node) (repo_path : Path) :
  dom (variables (find_env_files fs repo_path))
  = list_to_set (map FS.name (example (find_env_files fs repo_path))).
Proof.
  rewrite variables_is_fold, fold_variables_dom, dom_empty_L. apply (left_id_L ∅ (∪)).
Qed.

(** X22: the dict is keyed by file name, not by path: of several example
    files with one name, the one found last gives the entry. *)
Theorem variables_last_file_wins (fs : node) (repo_path : Path)
    (before after : list Path) (file : Path) :
  example (find_env_files fs repo_path) = before ++ file :: after ->
  Forall (fun g => FS.name g <> FS.name file) after ->
  variables (find_env_files fs repo_path) !! FS.name file = Some (parse_env_example fs file).
Proof.
  rewrite variables_is_fold. intros -> Hafter. rewrite fold_left_app. cbn [fold_left].
  rewrite (fold_variables_other fs after _ _ Hafter). apply lookup_insert_eq.
Qed.

Lemma variables_last_file_wins_witness :
  example (find_env_files two_examples_fs ["work"; "mono"])
  = [["work"; "mono"; "api"; ".env.example"]] ++ ["work"; "mono"; "web"; ".env.example"] :: []
  /\ variables (find_env_files two_examples_fs ["work"; "mono"]) !! ".env.example"
     = Some (parse_env_example two_examples_fs ["work"; "mono"; "web"; ".env.example"]).
Proof.
  split; [reflexivity|].
  apply (variables_last_file_wins two_examples_fs ["work"; "mono"]
           [["work"; "mono"; "api"; ".env.example"]] []
           ["work"; "mono"; "web"; ".env.example"]).
  - reflexivity.
  - constructor.
Defined.

(** ** Parsing an example file *)

Section StripFacts.

Lemma rstrip_cons_nonspace (c : ascii) (s : string) :
  Str.is_space c = false -> Str.rstrip (String c s) = String c (Str.rstrip s).
Proof. intros Hc. cbn [Str.rstrip]. rewrite Hc. now destruct (Str.rstrip s). Qed.

Lemma rstrip_cons_nonempty (c : ascii) (s : string) :
  Str.rstrip s <> EmptyString -> Str.rstrip (String c s) = String c (Str.rstrip s).
Proof. intros H. cbn [Str.rstrip]. destruct (Str.rstrip s); [now contradiction H | reflexivity]. Qed.

Lemma rstrip_cons_blank (c : ascii) (s : string) :
  Str.is_space c = true -> Str.rstrip s = EmptyString -> Str.rstrip (String c s) = EmptyString.
Proof. intros Hc H. cbn [Str.rstrip]. now rewrite H, Hc. Qed.

Lemma lstrip_rstrip_comm (s : string) :
  Str.lstrip (Str.rstrip s) = Str.rstrip (Str.lstrip s).
Proof.
  induction s as [|c s IH]; [reflexivity|].
  destruct (Str.is_space c) eqn:Hc.
  - cbn [Str.lstrip]. rewrite Hc, <- IH.
    destruct (Str.rstrip s) as [|d r] eqn:Hr.
    + now rewrite (rstrip_cons_blank c s Hc Hr).
    + rewrite rstrip_cons_nonempty by (rewrite Hr; discriminate).
      rewrite Hr. cbn [Str.lstrip]. now rewrite Hc.
  - rewrite (rstrip_cons_nonspace c s Hc). cbn [Str.lstrip]. rewrite Hc.
    now rewrite (rstrip_cons_nonspace c s Hc).
Qed.

Lemma lstrip_idem (s : string) : Str.lstrip (Str.lstrip s) = Str.lstrip s.
Proof.
  induction s as [|c s IH]; [reflexivity|]. cbn [Str.lstrip].
  destruct (Str.is_space c) eqn:Hc; [exact IH|]. cbn [Str.lstrip]. now rewrite Hc.
Qed.

Lemma rstrip_idem (s : string) : Str.rstrip (Str.rstrip s) = Str.rstrip s.
Proof.
  induction s as [|c s IH]; [reflexivity|].
  destruct (string_dec (Str.rstrip s) EmptyString) as [Hr|Hr].
  - destruct (Str.is_space c) eqn:Hc.
    + now rewrite (rstrip_cons_blank c s Hc Hr).
    + rewrite (rstrip_cons_nonspace c s Hc), Hr. cbn [Str.rstrip]. now rewrite Hc.
  - rewrite (rstrip_cons_nonempty c s Hr).
    rewrite rstrip_cons_nonempty by (now rewrite IH).
    now rewrite IH.
Qed.

Lemma strip_idem (s : string) : Str.strip (Str.strip s) = Str.strip s.
Proof.
  unfold Str.strip. now rewrite lstrip_rstrip_comm, lstrip_idem, rstrip_idem.
Qed.

Lemma strip_lstrip (s : string) : Str.strip (Str.lstrip s) = Str.strip s.
Proof. unfold Str.strip. now rewrite lstrip_idem. Qed.

Lemma strip_rstrip (s : string) : Str.strip (Str.rstrip s) = Str.strip s.
Proof. unfold Str.strip. now rewrite lstrip_rstrip_comm, rstrip_idem. Qed.

Lemma lstrip_app_nonspace (a b : string) (c : ascii) :
  Str.is_space c = false ->
  Str.lstrip (a +:+ String c b) = Str.lstrip a +:+ String c b.
Proof.
  intros Hc. induction a as [|x a IH].
  - cbn [Str.lstrip]. change (EmptyString +:+ String c b) with (String c b).
    cbn [Str.lstrip]. now rewrite Hc.
  - rewrite app_cons. cbn [Str.lstrip]. destruct (Str.is_space x); [exact IH|].
    now rewrite app_cons.
Qed.

Lemma app_not_empty (a b : string) : b <> EmptyString -> a +:+ b <> EmptyString.
Proof. intros H. destruct a; [exact H | discriminate]. Qed.

Lemma rstrip_app (a b : string) :
  Str.rstrip b <> EmptyString -> Str.rstrip (a +:+ b) = a +:+ Str.rstrip b.
Proof.
  intros Hb. induction a as [|x a IH]; [reflexivity|].
  rewrite !app_cons, rstrip_cons_nonempty; rewrite IH; [reflexivity|].
  now apply app_not_empty.
Qed.

(** The text a strip leaves begins with a character that is not white
    space. *)
Lemma lstrip_head (s : string) (c : ascii) (t : string) :
  Str.lstrip s = String c t -> Str.is_space c = false.
Proof.
  induction s as [|x s IH]; [discriminate|]. cbn [Str.lstrip].
  destruct (Str.is_space x) eqn:Hx; [exact IH|]. now intros [= <- _].
Qed.

Lemma strip_head (s : string) (c : ascii) (t : string) :
  Str.strip s = String c t -> Str.is_space c = false.
Proof.
  unfold Str.strip. rewrite <- lstrip_rstrip_comm. apply lstrip_head.
Qed.

Lemma isin_char_cons (c d : ascii) (s : string) :
  Str.isin (String c EmptyString) (String d s)
  = Ascii.eqb c d || Str.isin (String c EmptyString) s.
Proof.
  cbn [Str.isin String.prefix]. destruct (ascii_dec c d) as [->|Hcd].
  - rewrite Ascii.eqb_refl. now destruct s.
  - apply Ascii.eqb_neq in Hcd. now rewrite Hcd.
Qed.

Lemma isin_char_lstrip (c : ascii) (s : string) :
  Str.isin (String c EmptyString) s = false ->
  Str.isin (String c EmptyString) (Str.lstrip s) = false.
Proof.
  induction s as [|x s IH]; [trivial|]. cbn [Str.lstrip].
  destruct (Str.is_space x); [|trivial].
  rewrite isin_char_cons. intros H. apply orb_false_iff in H as [_ H]. now apply IH.
Qed.

Lemma isin_char_rstrip (c : ascii) (s : string) :
  Str.isin (String c EmptyString) s = false ->
  Str.isin (String c EmptyString) (Str.rstrip s) = false.
Proof.
  induction s as [|x s IH]; [trivial|].
  rewrite isin_char_cons. intros H. apply orb_false_iff in H as [Hx H].
  specialize (IH H). cbn [Str.rstrip]. destruct (Str.rstrip s) as [|d r].
  - destruct (Str.is_space x); [reflexivity|]. rewrite isin_char_cons, Hx. reflexivity.
  - rewrite isin_char_cons, Hx. exact IH.
Qed.

Lemma isin_char_strip (c : ascii) (s : string) :
  Str.isin (String c EmptyString) s = false ->
  Str.isin (String c EmptyString) (Str.strip s) = false.
Proof. intros H. unfold Str.strip. now apply isin_char_rstrip, isin_char_lstrip. Qed.

Lemma isin_char_app (c : ascii) (a b : string) :
  Str.isin (String c EmptyString) (a +:+ String c b) = true.
Proof.
  induction a as [|x a IH].
  - change (EmptyString +:+ String c b) with (String c b).
    now rewrite isin_char_cons, Ascii.eqb_refl.
  - now rewrite app_cons, isin_char_cons, IH, orb_true_r.
Qed.

Lemma split1_app (sep : ascii) (k v : string) :
  Str.isin (String sep EmptyString) k = false ->
  Str.split1 sep (k +:+ String sep v) = Some (k, v).
Proof.
  induction k as [|x k IH]; intros H.
  - change (EmptyString +:+ String sep v) with (String sep v).
    cbn [Str.split1]. now rewrite Ascii.eqb_refl.
  - rewrite isin_char_cons in H. apply orb_false_iff in H as [Hx H].
    rewrite app_cons. cbn [Str.split1]. rewrite Ascii.eqb_sym, Hx. now rewrite (IH H).
Qed.

Lemma split1_some (sep : ascii) (s k v : string) :
  Str.split1 sep s = Some (k, v) ->
  Str.isin (String sep EmptyString) k = false /\ s = k +:+ String sep v.
Proof.
  revert k. induction s as [|x s IH]; intros k; cbn [Str.split1]; [discriminate|].
  destruct (Ascii.eqb_spec x sep) as [->|Hx].
  - intros [= <- <-]. now split.
  - destruct (Str.split1 sep s) as [[k' v']|]; [|discriminate].
    intros [= <- <-]. destruct (IH k' eq_refl) as [Hk ->]. split; [|reflexivity].
    rewrite isin_char_cons, Hk, orb_false_r. apply Ascii.eqb_neq. congruence.
Qed.

End StripFacts.

Section ParseFacts.

Lemma strip_assignment (key value : string) :
  Str.strip (key +:+ String "=" value) = Str.lstrip key +:+ String "=" (Str.rstrip value).
Proof.
  unfold Str.strip. rewrite lstrip_app_nonspace by reflexivity.
  rewrite rstrip_app; rewrite (rstrip_cons_nonspace "=" value eq_refl); [reflexivity | discriminate].
Qed.

(** The first character of a stripped key decides whether the stripped
    line starts a comment. *)
Lemma comment_mark_of_key (key rest : string) :
  Str.startswith (Str.lstrip key +:+ String "=" rest) "#" = Str.startswith (Str.strip key) "#".
Proof.
  unfold Str.startswith, Str.strip. destruct (Str.lstrip key) as [|x k] eqn:E; [reflexivity|].
  rewrite (rstrip_cons_nonspace x k (lstrip_head key x k E)). rewrite app_cons.
  cbn [String.prefix]. destruct (ascii_dec "#" x); [|reflexivity].
  now destruct (k +:+ String "=" rest), (Str.rstrip k).
Qed.

End ParseFacts.

(** X23: a line [key=value] records the stripped key with the stripped
    value, whatever white space surrounds the two and whatever the value
    holds (further equals signs included), as long as the key has no
    equals sign and does not start with the comment mark. *)
Theorem parse_line_records_assignment (env_vars : gmap string string) (key value : string) :
  Str.isin "=" key = false ->
  Str.startswith (Str.strip key) "#" = false ->
  parse_line env_vars (key +:+ String "=" value)
  = <[Str.strip key := Str.strip value]> env_vars.
Proof.
  intros Hk Hc. unfold parse_line. rewrite strip_assignment.
  assert (String.eqb (Str.lstrip key +:+ String "=" (Str.rstrip value)) EmptyString = false) as ->.
  { apply String.eqb_neq. now apply app_not_empty. }
  rewrite comment_mark_of_key, Hc. cbn [orb].
  rewrite (isin_char_app "=" _ _).
  rewrite (split1_app "=" _ _ (isin_char_lstrip "=" key Hk)).
  now rewrite strip_lstrip, strip_rstrip.
Qed.

Lemma parse_line_records_assignment_witness :
  parse_line ∅ ("  DB_URL " +:+ String "=" " postgres://h/db?a=b  ")
  = <[Str.strip "  DB_URL " := Str.strip " postgres://h/db?a=b  "]> ∅
  /\ Str.strip "  DB_URL " = "DB_URL"
  /\ Str.strip " postgres://h/db?a=b  " = "postgres://h/db?a=b".
Proof.
  split; [|split; reflexivity].
  apply (parse_line_records_assignment ∅ "  DB_URL " " postgres://h/db?a=b  "); reflexivity.
Defined.

Section CleanFacts.

Lemma parse_line_clean (env_vars : gmap string string) (line : string) :
  map_Forall clean_entry env_vars -> map_Forall clean_entry (parse_line env_vars line).
Proof.
  intros Henv. unfold parse_line.
  destruct (String.eqb (Str.strip line) EmptyString || Str.startswith (Str.strip line) "#")
    eqn:Hskip; [exact Henv|].
  destruct (Str.isin "=" (Str.strip line)); [|exact Henv].
  destruct (Str.split1 "=" (Str.strip line)) as [[key value]|] eqn:Hs; [|exact Henv].
  apply map_Forall_insert_2; [|exact Henv].
  apply orb_false_iff in Hskip as [_ Hc].
  apply split1_some in Hs as [Hk Hl].
  repeat split.
  - now apply isin_char_strip.
  - destruct key as [|y key']; [reflexivity|].
    rewrite Hl, app_cons in Hc.
    assert (Str.is_space y = false) as Hy.
    { apply (strip_head line y (key' +:+ String "=" value)). now rewrite Hl, app_cons. }
    unfold Str.strip. cbn [Str.lstrip]. rewrite Hy, (rstrip_cons_nonspace y key' Hy).
    unfold Str.startswith in *. cbn [String.prefix] in *.
    destruct (ascii_dec "#" y); [|reflexivity].
    destruct (key' +:+ String "=" value); discriminate Hc.
  - apply strip_idem.
  - apply strip_idem.
Qed.

Lemma parse_lines_clean (lines : list string) (env_vars : gmap string string) :
  map_Forall clean_entry env_vars ->
  map_Forall clean_entry (fold_left parse_line lines env_vars).
Proof.
  revert env_vars. induction lines as [|l lines IH]; intros env_vars H; cbn [fold_left]; [exact H|].
  now apply IH, parse_line_clean.
Qed.

End CleanFacts.

(** X24: every variable read from an example file is clean: its key holds
    no equals sign and does not start with the comment mark, and neither
    key nor value has white space at its ends. *)
Theorem parsed_variables_are_clean (fs : node) (example_path : Path) (key value : string) :
  parse_env_example fs example_path !! key = Some value ->
  clean_entry key value.
Proof.
  unfold parse_env_example. destruct (FS.read_text fs example_path) as [text|e];
    cbn [bind try_except].
  - intros H. exact (parse_lines_clean (Str.lines text) ∅ (map_Forall_empty _) key value H).
  - intros H. rewrite lookup_empty in H. discriminate H.
Qed.

Lemma parsed_variables_are_clean_witness :
  clean_entry "KEY2" "a=b".
Proof.
  apply (parsed_variables_are_clean env_repo_fs ["work"; "repo"; ".env.example"]).
  vm_compute. reflexivity.
Defined.

(** ** The repository name *)

Example get_repo_name_examples :
  get_repo_name (SourceStr "https://github.com/user/ci_cd.git") = "ci_cd"
  /\ get_repo_name (SourceStr "git@github.com:user/tool.git") = "tool"
  /\ get_repo_name (SourceStr "C:\work\shop") = "shop"
  /\ get_repo_name (SourceStr "shop") = "unknown-repo"
  /\ get_repo_name (SourceStr "https://host/my.github.io") = "myhub.io"
  /\ get_repo_name (SourcePath ["srv"; "shop.git"]) = "shop"
  /\ get_repo_name (SourcePath []) = "unknown-repo".
Proof. repeat split. Qed.

Section PieceFacts.

Lemma str_app_assoc (a b c : string) : (a +:+ b) +:+ c = a +:+ (b +:+ c).
Proof. induction a as [|x a IH]; [reflexivity|]. now rewrite !app_cons, IH. Qed.

Lemma str_app_nil_r (a : string) : a +:+ EmptyString = a.
Proof. induction a as [|x a IH]; [reflexivity|]. now rewrite app_cons, IH. Qed.

Lemma isin_char_append (c : ascii) (a b : string) :
  Str.isin (String c EmptyString) (a +:+ b)
  = Str.isin (String c EmptyString) a || Str.isin (String c EmptyString) b.
Proof.
  induction a as [|x a IH].
  - change (EmptyString +:+ b) with b. now destruct b.
  - now rewrite app_cons, !isin_char_cons, IH, orb_assoc.
Qed.

Lemma split_nosep (sep : ascii) (s : string) :
  Str.isin (String sep EmptyString) s = false -> Str.split sep s = [s].
Proof.
  induction s as [|x s IH]; [reflexivity|].
  rewrite isin_char_cons. intros H. apply orb_false_iff in H as [Hx H].
  cbn [Str.split]. rewrite Ascii.eqb_sym, Hx, (IH H). reflexivity.
Qed.

Lemma split_sep_two (sep : ascii) (s : string) :
  Str.isin (String sep EmptyString) s = true ->
  exists a b rest, Str.split sep s = a :: b :: rest.
Proof.
  induction s as [|x s IH]; [discriminate|].
  rewrite isin_char_cons. cbn [Str.split]. rewrite (Ascii.eqb_sym sep x).
  destruct (Ascii.eqb x sep); cbn [orb].
  - intros _. destruct (Str.split sep s) as [|a rest] eqn:E.
    + destruct s; cbn [Str.split] in E; [discriminate E|].
      destruct (Ascii.eqb a sep); [discriminate E|]. destruct (Str.split sep s); discriminate E.
    + now exists EmptyString, a, rest.
  - intros H. destruct (IH H) as (a & b & rest & ->). now exists (String x a), b, rest.
Qed.

(** The piece after the last separator, one character at a time. *)
Lemma last_piece_cons (sep x : ascii) (s : string) :
  last_piece sep (String x s)
  = if Ascii.eqb x sep || Str.isin (String sep EmptyString) s
    then last_piece sep s else String x s.
Proof.
  unfold last_piece. cbn [Str.split].
  destruct (Str.isin (String sep EmptyString) s) eqn:Hs.
  - rewrite orb_true_r. destruct (split_sep_two sep s Hs) as (a & b & rest & ->).
    now destruct (Ascii.eqb x sep).
  - rewrite orb_false_r, (split_nosep sep s Hs). now destruct (Ascii.eqb x sep).
Qed.

Lemma last_piece_nosep (sep : ascii) (s : string) :
  Str.isin (String sep EmptyString) s = false -> last_piece sep s = s.
Proof. intros H. unfold last_piece. now rewrite (split_nosep sep s H). Qed.

Lemma last_piece_app_sep (sep : ascii) (a b : string) :
  last_piece sep (a +:+ String sep b) = last_piece sep b.
Proof.
  induction a as [|x a IH].
  - change (EmptyString +:+ String sep b) with (String sep b).
    now rewrite last_piece_cons, Ascii.eqb_refl.
  - now rewrite app_cons, last_piece_cons, isin_char_app, orb_true_r.
Qed.

Lemma last_piece_app_nosep (sep : ascii) (a t : string) :
  Str.isin (String sep EmptyString) t = false ->
  last_piece sep (a +:+ t) = last_piece sep a +:+ t.
Proof.
  intros Ht. induction a as [|x a IH].
  - change (EmptyString +:+ t) with t. now rewrite (last_piece_nosep sep t Ht).
  - rewrite app_cons, !last_piece_cons, isin_char_append, Ht, orb_false_r.
    destruct (Ascii.eqb x sep || Str.isin (String sep EmptyString) a); [exact IH | reflexivity].
Qed.

Lemma last_piece_has_no_sep (sep : ascii) (s : string) :
  Str.isin (String sep EmptyString) (last_piece sep s) = false.
Proof.
  induction s as [|x s IH]; [reflexivity|]. rewrite last_piece_cons.
  destruct (Ascii.eqb x sep) eqn:Hx; cbn [orb]; [exact IH|].
  destruct (Str.isin (String sep EmptyString) s) eqn:Hs; [exact IH|].
  now rewrite isin_char_cons, Ascii.eqb_sym, Hx, Hs.
Qed.

Lemma last_piece_chars (c sep : ascii) (s : string) :
  Str.isin (String c EmptyString) s = false ->
  Str.isin (String c EmptyString) (last_piece sep s) = false.
Proof.
  induction s as [|x s IH]; [trivial|]. rewrite last_piece_cons, isin_char_cons.
  intros H. destruct (Ascii.eqb x sep || Str.isin (String sep EmptyString) s).
  - apply orb_false_iff in H as [_ H]. now apply IH.
  - now rewrite isin_char_cons.
Qed.

End PieceFacts.

Section ReplaceFacts.

Variables old new : string.

Lemma replace_keeps_out (d : ascii) (s : string) (skip : nat) :
  Str.isin (String d EmptyString) s = false ->
  Str.isin (String d EmptyString) new = false ->
  Str.isin (String d EmptyString) (Str.replace_from old new s skip) = false.
Proof.
  intros Hs Hn. revert skip Hs. induction s as [|x s IH]; intros skip Hs; [reflexivity|].
  rewrite isin_char_cons in Hs. apply orb_false_iff in Hs as [Hx Hs].
  cbn [Str.replace_from]. destruct skip as [|k]; [|now apply IH].
  destruct (String.prefix old (String x s)).
  - now rewrite isin_char_append, Hn, IH.
  - now rewrite isin_char_cons, Hx, IH.
Qed.

Lemma prefix_app_sep (c : ascii) (pat a b : string) :
  Str.isin (String c EmptyString) pat = false ->
  String.prefix pat (a +:+ String c b) = String.prefix pat a.
Proof.
  revert a. induction pat as [|o pat IH]; intros a H.
  - now destruct a.
  - rewrite isin_char_cons in H. apply orb_false_iff in H as [Ho H].
    destruct a as [|x a].
    + change (EmptyString +:+ String c b) with (String c b). cbn [String.prefix].
      destruct (ascii_dec o c) as [->|_]; [|reflexivity].
      now rewrite Ascii.eqb_refl in Ho.
    + rewrite app_cons. cbn [String.prefix]. destruct (ascii_dec o x); [now apply IH | reflexivity].
Qed.

Lemma prefix_length (pat s : string) :
  String.prefix pat s = true -> String.length pat <= String.length s.
Proof.
  revert s. induction pat as [|o pat IH]; intros s; [cbn; lia|].
  destruct s as [|x s]; cbn [String.prefix String.length]; [discriminate|].
  destruct (ascii_dec o x); [|discriminate]. intros H. apply IH in H. lia.
Qed.

(** A character that does not occur in [old] cuts the text into two
    parts that are replaced on their own. *)
Lemma replace_app_sep (c : ascii) (a b : string) (skip : nat) :
  old <> EmptyString ->
  Str.isin (String c EmptyString) old = false ->
  skip <= String.length a ->
  Str.replace_from old new (a +:+ String c b) skip
  = Str.replace_from old new a skip +:+ String c (Str.replace_from old new b 0).
Proof.
  intros Hne Hc. revert skip. induction a as [|x a IH]; intros skip Hk.
  - cbn [String.length] in Hk. assert (skip = 0) as -> by lia.
    change (EmptyString +:+ String c b) with (String c b). cbn [Str.replace_from].
    pose proof (prefix_app_sep c old EmptyString b Hc) as P.
    change (EmptyString +:+ String c b) with (String c b) in P. rewrite P.
    destruct old; [now contradiction Hne | reflexivity].
  - rewrite app_cons. cbn [Str.replace_from]. destruct skip as [|k].
    + pose proof (prefix_app_sep c old (String x a) b Hc) as P. rewrite app_cons in P.
      rewrite P. destruct (String.prefix old (String x a)) eqn:E.
      * apply prefix_length in E. cbn [String.length] in E.
        rewrite IH by lia. now rewrite str_app_assoc.
      * rewrite IH by lia. now rewrite app_cons.
    + cbn [String.length] in Hk. apply IH. lia.
Qed.

End ReplaceFacts.

Lemma replace_no_head (o : ascii) (pat new a b : string) :
  Str.isin (String o EmptyString) a = false ->
  Str.replace (String o pat) new (a +:+ b) = a +:+ Str.replace (String o pat) new b.
Proof.
  unfold Str.replace. induction a as [|x a IH]; intros H; [reflexivity|].
  rewrite isin_char_cons in H. apply orb_false_iff in H as [Hx H].
  rewrite !app_cons. cbn [Str.replace_from String.prefix].
  destruct (ascii_dec o x) as [->|_]; [now rewrite Ascii.eqb_refl in Hx|].
  now rewrite (IH H).
Qed.

Lemma map_chars_app (f : ascii -> ascii) (a b : string) :
  map_chars f (a +:+ b) = map_chars f a +:+ map_chars f b.
Proof. induction a as [|x a IH]; [reflexivity|]. rewrite !app_cons. cbn [map_chars]. now rewrite IH, app_cons. Qed.

Lemma map_chars_absent (a b : ascii) (s : string) :
  Str.isin (String a EmptyString) s = false ->
  map_chars (fun c => if Ascii.eqb c a then b else c) s = s.
Proof.
  induction s as [|x s IH]; [reflexivity|]. rewrite isin_char_cons.
  intros H. apply orb_false_iff in H as [Hx H]. cbn [map_chars].
  now rewrite Ascii.eqb_sym, Hx, (IH H).
Qed.

Lemma map_chars_removes (a b : ascii) (s : string) :
  Ascii.eqb a b = false ->
  Str.isin (String a EmptyString)
           (map_chars (fun c => if Ascii.eqb c a then b else c) s) = false.
Proof.
  intros Hab. induction s as [|x s IH]; [reflexivity|]. cbn [map_chars].
  rewrite isin_char_cons, IH, orb_false_r.
  destruct (Ascii.eqb_spec x a) as [->|Hx]; [exact Hab|].
  apply Ascii.eqb_neq. congruence.
Qed.

(** [get_repo_name] on a string, with [pieces[-1]] written as
    [last_piece]. *)
Lemma get_repo_name_str (source : string) :
  get_repo_name (SourceStr source)
  = let src := Str.replace "\" "/" source in
    if Str.startswith src "git@" || Str.startswith src "http" || Str.startswith src "https"
    then last_piece "/" (last_piece ":" (Str.replace ".git" EmptyString src))
    else if Str.isin "/" src || Str.isin ".git" src
    then last_piece "/" (Str.replace ".git" EmptyString src)
    else "unknown-repo".
Proof. reflexivity. Qed.

(** X25: the name computed from a string never holds a slash or a
    backslash, whatever the string. *)
Theorem repo_name_has_no_separator (source : string) :
  Str.isin "/" (get_repo_name (SourceStr source)) = false
  /\ Str.isin "\" (get_repo_name (SourceStr source)) = false.
Proof.
  rewrite get_repo_name_str. cbv zeta.
  assert (Str.isin "\" (Str.replace ".git" EmptyString (Str.replace "\" "/" source)) = false) as Hb.
  { apply replace_keeps_out; [|reflexivity].
    rewrite (replace_char "\" "/"). now apply map_chars_removes. }
  destruct (_ || _ || _); [|destruct (_ || _)].
  - split; [apply last_piece_has_no_sep | now apply last_piece_chars, last_piece_chars].
  - split; [apply last_piece_has_no_sep | now apply last_piece_chars].
  - split; reflexivity.
Qed.

Section CloneSource.

Variables base name suffix : string.
Hypothesis no_dot : Str.isin "." name = false.
Hypothesis no_slash : Str.isin "/" name = false.
Hypothesis no_colon : Str.isin ":" name = false.
Hypothesis no_backslash : Str.isin "\" name = false.
Hypothesis suffix_plain : Str.replace "\" "/" suffix = suffix.
Hypothesis suffix_dropped : Str.replace ".git" EmptyString suffix = EmptyString.

Lemma clone_source_name :
  get_repo_name (SourceStr (base +:+ String "/" (name +:+ suffix))) = name.
Proof using All.
  rewrite get_repo_name_str. cbv zeta.
  assert (exists B, Str.replace "\" "/" (base +:+ String "/" (name +:+ suffix))
                    = B +:+ String "/" (name +:+ suffix)) as [B ->].
  { exists (Str.replace "\" "/" base).
    pose proof suffix_plain as Hs. rewrite (replace_char "\" "/") in Hs.
    rewrite !(replace_char "\" "/"), map_chars_app. cbn [map_chars Ascii.eqb Bool.eqb].
    rewrite map_chars_app.
    now rewrite (map_chars_absent "\" "/" name no_backslash), Hs. }
  assert (exists R, Str.replace ".git" EmptyString (B +:+ String "/" (name +:+ suffix))
                    = R +:+ String "/" name) as [R ->].
  { exists (Str.replace ".git" EmptyString B). unfold Str.replace at 1.
    rewrite replace_app_sep; [|discriminate|reflexivity|lia].
    fold (Str.replace ".git" EmptyString B).
    fold (Str.replace ".git" EmptyString (name +:+ suffix)).
    rewrite (replace_no_head "." "git" EmptyString name suffix no_dot), suffix_dropped.
    now rewrite str_app_nil_r. }
  assert (Str.isin "/" (B +:+ String "/" (name +:+ suffix)) = true) as ->
    by apply isin_char_app.
  cbn [orb].
  assert (last_piece "/" (R +:+ String "/" name) = name) as ->.
  { now rewrite last_piece_app_sep, (last_piece_nosep "/" name no_slash). }
  assert (last_piece "/" (last_piece ":" (R +:+ String "/" name)) = name) as ->.
  { rewrite last_piece_app_nosep.
    - now rewrite last_piece_app_sep, (last_piece_nosep "/" name no_slash).
    - now rewrite isin_char_cons, no_colon. }
  now destruct (_ || _ || _).
Qed.

End CloneSource.

(** X26: for a source that ends in a slash and a name, with or without
    the ending ".git", the result is that name, whatever stands before
    the slash (a URL, an scp-style address, a local path), as long as the
    name itself holds no dot, slash, colon or backslash. *)
Theorem repo_name_is_last_component (base name : string) :
  Str.isin "." name = false ->
  Str.isin "/" name = false ->
  Str.isin ":" name = false ->
  Str.isin "\" name = false ->
  get_repo_name (SourceStr (base +:+ String "/" (name +:+ ".git"))) = name
  /\ get_repo_name (SourceStr (base +:+ String "/" name)) = name.
Proof.
  intros H1 H2 H3 H4. split.
  - now apply clone_source_name.
  - rewrite <- (str_app_nil_r name) at 1. now apply clone_source_name.
Qed.

Lemma repo_name_is_last_component_witness :
  get_repo_name (SourceStr ("git@github.com:Ivan/web" +:+ String "/" ("ci_cd_hacaton" +:+ ".git")))
  = "ci_cd_hacaton"
  /\ get_repo_name (SourceStr ("git@github.com:Ivan/web" +:+ String "/" "ci_cd_hacaton"))
     = "ci_cd_hacaton".
Proof.
  apply (repo_name_is_last_component "git@github.com:Ivan/web" "ci_cd_hacaton"); reflexivity.
Defined.

(** ** Cleaning a clone *)

Example clean_repo_name_example :
  clean_repo_name 4 clone_fs ["tmp"; "clone"]
  = Some (Ok (Dir [("tmp", Dir [("keep", Dir [("notes.txt", File (Some "mine"))])])]))
  /\ clean_repo_name 2 clone_fs ["tmp"; "clone"] = None
  /\ clean_repo_name 1 clone_fs ["tmp"; "absent"] = Some (Ok clone_fs).
Proof. repeat split. Qed.

Section TreeFacts.








Variables f g : list (string * node) -> list (string * node).





End TreeFacts.

Section CleanFacts2.












End CleanFacts2.






(** X29: cleaning a path that does not exist changes nothing and raises
    nothing, with any fuel at all. *)
Theorem clean_missing_path (fs : node) (path : Path) (fuel : nat) :
  FS.resolve fs path = None ->
  clean_repo_name (S fuel) fs path = Some (Ok fs).
Proof.
  intros H. cbn [clean_repo_name]. unfold FS.is_file, FS.is_dir. now rewrite H.
Qed.

Lemma clean_missing_path_witness :
  clean_repo_name 1 clone_fs ["tmp"; "absent"; "deeper"] = Some (Ok clone_fs).
Proof.
  apply (clean_missing_path clone_fs ["tmp"; "absent"; "deeper"] 0). reflexivity.
Defined.
